(** * OCRA token class of privacyIDEA (privacyidea/lib/tokens/ocratoken.py)

    A shallow embedding of [OcraTokenClass]: enrollment ([update]),
    challenge issuance ([create_challenge]), response verification
    ([verify_response], [check_otp]) and the CSV import adapter
    ([get_import_csv]), followed by the properties proved about them.

    Python values are embedded as a small tagged union, dictionaries as
    [gmap string _], exceptions as a sum type, and the methods of the class
    as computations in a state-and-exception monad over the token object,
    the challenge table, the configuration and a journal of the calls made
    to the collaborators the module imports. *)

From Stdlib Require Import ZArith String Ascii List Bool Lia.
From stdpp Require Import base option gmap strings list.

Local Open Scope string_scope.
Local Open Scope Z_scope.

(** ** Python values and exceptions *)

Module Py.

(** The values that travel through parameter bags, option maps, token
    info and the configuration. *)
Inductive val : Type :=
| None_
| Bool (b : bool)
| Int (z : Z)
| Str (s : string).

(** The exceptions the embedded code can raise.  [Exception_] is the
    bare [Exception] the suite engine raises on a malformed descriptor;
    [External] tags a failure inside a collaborator. *)
Inductive exn : Type :=
| KeyError (key : string)
| TypeError
| AttributeError
| ValueError
| TokenAdminError
| Exception_ (msg : string)
| External (tag : string).

Definition result (A : Type) : Type := (exn + A)%type.

(** Truth value testing ([if x:], [x or y], [not x]). *)
Definition truthy (v : val) : bool :=
  match v with
  | None_ => false
  | Bool b => b
  | Int z => negb (Z.eqb z 0)
  | Str s => negb (String.eqb s "")
  end.

(** [a or b] *)
Definition or_ (a b : val) : val := if truthy a then a else b.

(** *** String methods (ASCII range) *)

Definition is_upper (c : ascii) : bool :=
  let n := nat_of_ascii c in (Nat.leb 65 n && Nat.leb n 90)%bool.

Definition is_lower (c : ascii) : bool :=
  let n := nat_of_ascii c in (Nat.leb 97 n && Nat.leb n 122)%bool.

Definition is_digit (c : ascii) : bool :=
  let n := nat_of_ascii c in (Nat.leb 48 n && Nat.leb n 57)%bool.

Definition is_alnum (c : ascii) : bool :=
  (is_upper c || is_lower c || is_digit c)%bool.

(** [str.isspace] on the ASCII range: TAB, LF, VT, FF, CR, FS, GS, RS,
    US and SPACE. *)
Definition is_space (c : ascii) : bool :=
  let n := nat_of_ascii c in
  ((Nat.leb 9 n && Nat.leb n 13) || (Nat.leb 28 n && Nat.leb n 32))%bool.

Definition lower_char (c : ascii) : ascii :=
  if is_upper c then ascii_of_nat (nat_of_ascii c + 32) else c.

Definition upper_char (c : ascii) : ascii :=
  if is_lower c then ascii_of_nat (nat_of_ascii c - 32) else c.

Fixpoint map_string (f : ascii -> ascii) (s : string) : string :=
  match s with
  | EmptyString => EmptyString
  | String c r => String (f c) (map_string f r)
  end.

(** [s.lower()] *)
Definition lower (s : string) : string := map_string lower_char s.

(** [s.capitalize()]: first character upper-cased, the rest lower-cased. *)
Definition capitalize (s : string) : string :=
  match s with
  | EmptyString => EmptyString
  | String c r => String (upper_char c) (lower r)
  end.

(** White space beyond the ASCII range, in the UTF-8 encoding strings are
    kept in: U+0085 and U+00A0 take two bytes; U+1680, U+2000 to U+200A,
    U+2028, U+2029, U+202F, U+205F and U+3000 take three.  Together with
    [is_space] these are the characters [str.isspace] accepts. *)
Definition is_space2 (a b : ascii) : bool :=
  (Nat.eqb (nat_of_ascii a) 194
   && (Nat.eqb (nat_of_ascii b) 133 || Nat.eqb (nat_of_ascii b) 160))%bool.

Definition is_space3 (a b c : ascii) : bool :=
  let x := nat_of_ascii a in
  let y := nat_of_ascii b in
  let z := nat_of_ascii c in
  ((Nat.eqb x 225 && Nat.eqb y 154 && Nat.eqb z 128)
   || (Nat.eqb x 226 && Nat.eqb y 128
       && ((Nat.leb 128 z && Nat.leb z 138) || Nat.eqb z 168 || Nat.eqb z 169 || Nat.eqb z 175))
   || (Nat.eqb x 226 && Nat.eqb y 129 && Nat.eqb z 159)
   || (Nat.eqb x 227 && Nat.eqb y 128 && Nat.eqb z 128))%bool.

(** The white space [int()] skips within the ASCII range is that of C's
    [isspace]: TAB, LF, VT, FF, CR and SPACE, without FS, GS, RS and US. *)
Definition is_cspace (c : ascii) : bool :=
  let n := nat_of_ascii c in
  ((Nat.leb 9 n && Nat.leb n 13) || Nat.eqb n 32)%bool.

(** Drops the white-space characters a list of bytes begins with, given
    the tests for characters of one, two and three bytes. *)
Fixpoint trim_front (sp1 : ascii -> bool) (sp2 : ascii -> ascii -> bool)
    (sp3 : ascii -> ascii -> ascii -> bool) (l : list ascii) : list ascii :=
  match l with
  | [] => []
  | a :: r =>
      if sp1 a then trim_front sp1 sp2 sp3 r
      else
        match r with
        | b :: r2 =>
            if sp2 a b then trim_front sp1 sp2 sp3 r2
            else
              match r2 with
              | c :: r3 => if sp3 a b c then trim_front sp1 sp2 sp3 r3 else l
              | [] => l
              end
        | [] => l
        end
  end.

(** The same tests for a list read backwards. *)
Definition is_space2_rev (b a : ascii) : bool := is_space2 a b.
Definition is_space3_rev (c b a : ascii) : bool := is_space3 a b c.

Definition lstrip_by (sp1 : ascii -> bool) (s : string) : string :=
  string_of_list_ascii (trim_front sp1 is_space2 is_space3 (list_ascii_of_string s)).

Definition rstrip_by (sp1 : ascii -> bool) (s : string) : string :=
  string_of_list_ascii
    (rev (trim_front sp1 is_space2_rev is_space3_rev (rev (list_ascii_of_string s)))).

(** [s.lstrip()] and [s.rstrip()] *)
Definition lstrip (s : string) : string := lstrip_by is_space s.
Definition rstrip (s : string) : string := rstrip_by is_space s.

(** [s.strip()] *)
Definition strip (s : string) : string := rstrip (lstrip s).

(** [v.lower()] on an arbitrary value: only strings have the method. *)
Definition lower_val (v : val) : result string :=
  match v with
  | Str s => inr (lower s)
  | _ => inl AttributeError
  end.

(** *** [int(x)] *)

Definition digit_value (c : ascii) : Z := Z.of_nat (nat_of_ascii c - 48).

(** Decimal digits, with single underscores allowed between digits.
    [after_digit] records whether the previous character was a digit. *)
Fixpoint parse_digits (acc : Z) (after_digit : bool) (s : string) : option Z :=
  match s with
  | EmptyString => if after_digit then Some acc else None
  | String c r =>
      if is_digit c then parse_digits (10 * acc + digit_value c) true r
      else if (Ascii.eqb c "_" && after_digit)%bool then parse_digits acc false r
      else None
  end.

Definition int_of_string (s : string) : option Z :=
  match rstrip_by is_cspace (lstrip_by is_cspace s) with
  | String "-" r => Z.opp <$> parse_digits 0 false r
  | String "+" r => parse_digits 0 false r
  | r => parse_digits 0 false r
  end.

(** [int(v)]: integers and booleans convert, strings are parsed in base
    ten after the white space around them is dropped ([ValueError] when
    malformed), [None] is a [TypeError].  Digits are the ASCII digits. *)
Definition int (v : val) : result Z :=
  match v with
  | Int z => inr z
  | Bool b => inr (if b then 1 else 0)
  | Str s => match int_of_string s with
             | Some z => inr z
             | None => inl ValueError
             end
  | None_ => inl TypeError
  end.

(** [a + b] as used by [challenge += <str>]: defined on two strings. *)
Definition add_str (a : val) (b : string) : result val :=
  match a with
  | Str s => inr (Str (s ++ b))
  | _ => inl TypeError
  end.

(** Dictionaries with string keys. *)
Abbreviation dict := (gmap string val).

(** [d.get(k)] and [d.get(k, default)] *)
Definition get (d : dict) (k : string) : val := default None_ (d !! k).
Definition get_default (d : dict) (k : string) (dflt : val) : val :=
  default dflt (d !! k).

(** [d[k]] *)
Definition getitem (d : dict) (k : string) : result val :=
  match d !! k with
  | Some v => inr v
  | None => inl (KeyError k)
  end.

End Py.

(** ** The hash functions of Python's [hashlib]

    SHA-1 (FIPS 180-4, section 6.1) and SHA-256 / SHA-512 (sections 6.2 and
    6.4) over byte strings.  A byte is an integer in [0, 256); a [w]-bit
    word is an integer reduced modulo [2^w]. *)

Module hashlib.

Abbreviation bytes := (list Z).

Definition wrap (w x : Z) : Z := x mod 2 ^ w.

Definition rotr (w n x : Z) : Z :=
  Z.lor (Z.shiftr x n) (wrap w (Z.shiftl x (w - n))).

Definition rotl (w n x : Z) : Z := rotr w (w - n) x.

Definition Ch (w x y z : Z) : Z :=
  Z.lxor (Z.land x y) (Z.land (Z.lxor x (2 ^ w - 1)) z).

Definition Maj (x y z : Z) : Z :=
  Z.lxor (Z.lxor (Z.land x y) (Z.land x z)) (Z.land y z).

Definition Parity (x y z : Z) : Z := Z.lxor (Z.lxor x y) z.

(** Big-endian conversions between words and bytes. *)
Definition be_word (bs : bytes) : Z :=
  fold_left (fun acc b => acc * 256 + b) bs 0.

Fixpoint be_bytes (n : nat) (v : Z) : bytes :=
  match n with
  | O => []
  | S n' => be_bytes n' (v / 256) ++ [v mod 256]
  end.

(** Splits a list into consecutive groups of [n] elements. *)
Fixpoint chunks {A} (fuel n : nat) (l : list A) : list (list A) :=
  match fuel, l with
  | _, [] => []
  | O, _ => []
  | S fuel', _ => take n l :: chunks fuel' n (drop n l)
  end.

(** Merkle-Damgard padding: the message, the byte 0x80, zero bytes up to
    a block boundary less the length field, and the bit length on [lenb]
    bytes. *)
Definition pad (block lenb : Z) (msg : bytes) : bytes :=
  let len := Z.of_nat (length msg) in
  let k := (block - (len + 1 + lenb) mod block) mod block in
  msg ++ [128] ++ repeat 0 (Z.to_nat k) ++ be_bytes (Z.to_nat lenb) (8 * len).

Definition blocks (block lenb : Z) (msg : bytes) : list (list Z) :=
  let p := pad block lenb msg in
  map (fun blk => map be_word (chunks 16 (Z.to_nat (block / 16)) blk))
      (chunks (length p) (Z.to_nat block) p).

Definition nth_word (i : nat) (l : list Z) : Z := nth i l 0.

(** *** SHA-256 and SHA-512 *)

Record sha2_params : Type := {
  word_bits : Z;
  K : list Z;
  H0 : list Z;
  Sigma0 : Z * Z * Z;
  Sigma1 : Z * Z * Z;
  sigma0 : Z * Z * Z;
  sigma1 : Z * Z * Z
}.

Definition big_sigma (w : Z) (r : Z * Z * Z) (x : Z) : Z :=
  let '(a, b, c) := r in Z.lxor (Z.lxor (rotr w a x) (rotr w b x)) (rotr w c x).

Definition small_sigma (w : Z) (r : Z * Z * Z) (x : Z) : Z :=
  let '(a, b, c) := r in Z.lxor (Z.lxor (rotr w a x) (rotr w b x)) (Z.shiftr x c).

(** The message schedule, kept most-recent-first while it is extended. *)
Fixpoint sha2_extend (p : sha2_params) (n : nat) (rev_w : list Z) : list Z :=
  match n with
  | O => rev_w
  | S n' =>
      let x := wrap (word_bits p)
                 (small_sigma (word_bits p) (sigma1 p) (nth_word 1 rev_w)
                  + nth_word 6 rev_w
                  + small_sigma (word_bits p) (sigma0 p) (nth_word 14 rev_w)
                  + nth_word 15 rev_w) in
      sha2_extend p n' (x :: rev_w)
  end.

Definition sha2_schedule (p : sha2_params) (blk : list Z) : list Z :=
  rev (sha2_extend p (length (K p) - 16) (rev blk)).

Definition sha2_round (p : sha2_params) (st : list Z) (kw : Z * Z) : list Z :=
  match st with
  | [a; b; c; d; e; f; g; h] =>
      let w := word_bits p in
      let t1 := h + big_sigma w (Sigma1 p) e + Ch w e f g + fst kw + snd kw in
      let t2 := big_sigma w (Sigma0 p) a + Maj a b c in
      [wrap w (t1 + t2); a; b; c; wrap w (d + t1); e; f; g]
  | _ => st
  end.

Definition add_words (w : Z) (xs ys : list Z) : list Z :=
  zip_with (fun x y => wrap w (x + y)) xs ys.

Definition sha2_compress (p : sha2_params) (h : list Z) (blk : list Z) : list Z :=
  add_words (word_bits p) h
    (fold_left (sha2_round p) (combine (K p) (sha2_schedule p blk)) h).

Definition sha2 (p : sha2_params) (msg : bytes) : bytes :=
  let block := word_bits p * 2 in
  let h := fold_left (sha2_compress p) (blocks block (word_bits p / 4) msg) (H0 p) in
  concat (map (be_bytes (Z.to_nat (word_bits p / 8))) h).

(** The constants are defined as FIPS 180-4 defines them: the initial hash
    value holds the leading fractional bits of the square roots of the
    first eight primes, the round constants those of the cube roots of the
    first sixty-four (SHA-256) or eighty (SHA-512) primes. *)
Definition is_prime (p : Z) : bool :=
  forallb (fun d => negb (p mod d =? 0)) (map Z.of_nat (seq 2 (Z.to_nat p - 2))).

Definition primes : list Z :=
  Eval vm_compute in filter is_prime (map Z.of_nat (seq 2 408)).

(** Integer cube root by bisection; [lo ^ 3 <= n < hi ^ 3] throughout. *)
Fixpoint cbrt_search (fuel : nat) (lo hi n : Z) : Z :=
  match fuel with
  | O => lo
  | S fuel' =>
      if hi - lo <=? 1 then lo
      else
        let m := (lo + hi) / 2 in
        if m * m * m <=? n then cbrt_search fuel' m hi n else cbrt_search fuel' lo m n
  end.

Definition cbrt (n : Z) : Z := cbrt_search 512 0 (n + 1) n.

Definition frac_sqrt (bits p : Z) : Z := Z.sqrt (p * 2 ^ (2 * bits)) mod 2 ^ bits.

Definition frac_cbrt (bits p : Z) : Z := cbrt (p * 2 ^ (3 * bits)) mod 2 ^ bits.

Definition sha256_params : sha2_params :=
  Eval vm_compute in
  {| word_bits := 32;
     K := map (frac_cbrt 32) (take 64 primes);
     H0 := map (frac_sqrt 32) (take 8 primes);
     Sigma0 := (2, 13, 22);
     Sigma1 := (6, 11, 25);
     sigma0 := (7, 18, 3);
     sigma1 := (17, 19, 10) |}.

Definition sha512_params : sha2_params :=
  Eval vm_compute in
  {| word_bits := 64;
     K := map (frac_cbrt 64) (take 80 primes);
     H0 := map (frac_sqrt 64) (take 8 primes);
     Sigma0 := (28, 34, 39);
     Sigma1 := (14, 18, 41);
     sigma0 := (1, 8, 7);
     sigma1 := (19, 61, 6) |}.

Definition sha256 (msg : bytes) : bytes := sha2 sha256_params msg.
Definition sha512 (msg : bytes) : bytes := sha2 sha512_params msg.

(** *** SHA-1 *)

Fixpoint sha1_extend (n : nat) (rev_w : list Z) : list Z :=
  match n with
  | O => rev_w
  | S n' =>
      let x := rotl 32 1
                 (Z.lxor (Z.lxor (nth_word 2 rev_w) (nth_word 7 rev_w))
                         (Z.lxor (nth_word 13 rev_w) (nth_word 15 rev_w))) in
      sha1_extend n' (x :: rev_w)
  end.

Definition sha1_f (t : nat) (b c d : Z) : Z * Z :=
  if Nat.ltb t 20 then (Ch 32 b c d, 0x5a827999)
  else if Nat.ltb t 40 then (Parity b c d, 0x6ed9eba1)
  else if Nat.ltb t 60 then (Maj b c d, 0x8f1bbcdc)
  else (Parity b c d, 0xca62c1d6).

Definition sha1_round (st : list Z) (tw : nat * Z) : list Z :=
  match st with
  | [a; b; c; d; e] =>
      let '(f, k) := sha1_f (fst tw) b c d in
      [wrap 32 (rotl 32 5 a + f + e + k + snd tw); a; rotl 32 30 b; c; d]
  | _ => st
  end.

Definition sha1_compress (h : list Z) (blk : list Z) : list Z :=
  let w := rev (sha1_extend 64 (rev blk)) in
  add_words 32 h (fold_left sha1_round (combine (seq 0 80) w) h).

Definition sha1 (msg : bytes) : bytes :=
  let h := fold_left sha1_compress (blocks 64 8 msg)
             [0x67452301; 0xefcdab89; 0x98badcfe; 0x10325476; 0xc3d2e1f0] in
  concat (map (be_bytes 4) h).

End hashlib.

(** ** Helpers of [privacyidea.lib.utils] *)

(** Modelled from the spec: [to_bytes] is missing from the sources; on a
    string it is the UTF-8 encoding.  Strings are kept in encoded form, so
    this is the list of their character codes. *)
Definition to_bytes (s : string) : hashlib.bytes :=
  map (fun c => Z.of_nat (nat_of_ascii c)) (list_ascii_of_string s).

Definition hex_digit (n : Z) : ascii :=
  if n <? 10 then ascii_of_nat (Z.to_nat (48 + n)) else ascii_of_nat (Z.to_nat (87 + n)).

(** Modelled from the spec: [hexlify_and_unicode] is missing from the
    sources; it is the hex encoding of a byte string, two lower-case
    hexadecimal digits per byte. *)
Fixpoint hexlify_and_unicode (bs : hashlib.bytes) : string :=
  match bs with
  | [] => EmptyString
  | b :: r => String (hex_digit (b / 16)) (String (hex_digit (b mod 16)) (hexlify_and_unicode r))
  end.

(** ** Data model *)

(** A resolved identity; [update] only reads its realm. *)
Record User : Type := { login : string; realm : string }.

(** A row of the challenge table ([privacyidea.models.Challenge]). *)
Record Challenge : Type := {
  ch_serial : string;
  transaction_id : Py.val;
  challenge : Py.val;
  data : Py.val;
  session : Py.val;
  validitytime : Z
}.

(** The token object: the database row [self.token] together with the
    attributes the token class keeps about it. *)
Record Token : Type := {
  serial : string;
  tokentype : string;
  tokeninfo : gmap string Py.val;
  user : option User;
  realms : list string;
  otpkey : hashlib.bytes;
  locked : bool;
  hKeyRequired : bool
}.

(** Calls the methods of this class make to collaborators that persist
    something or that run the suite engine's response check; they are
    journalled in the order made.  What a collaborator calls in turn (the
    realm assignment inside add_user, say) is not journalled. *)
Inductive call : Type :=
| Call_add_user (u : User)
| Call_add_tokeninfo (key : string) (value : Py.val)
| Call_TokenClass_update (param : Py.dict)
| Call_set_realms (rs : list string)
| Call_Challenge_save (c : Challenge)
| Call_check_response (passw question : Py.val).

(** Everything a method call can read or change. *)
Record World : Type := {
  self : Token;
  challenges : list Challenge;
  config : gmap string Py.val;
  cursor : nat;
  journal : list call
}.

Definition set_self (t : Token) (w : World) : World :=
  {| self := t; challenges := challenges w; config := config w;
     cursor := cursor w; journal := journal w |}.

Definition set_challenges (cs : list Challenge) (w : World) : World :=
  {| self := self w; challenges := cs; config := config w;
     cursor := cursor w; journal := journal w |}.

Definition set_cursor (n : nat) (w : World) : World :=
  {| self := self w; challenges := challenges w; config := config w;
     cursor := n; journal := journal w |}.

Definition log_call (c : call) (w : World) : World :=
  {| self := self w; challenges := challenges w; config := config w;
     cursor := cursor w; journal := journal w ++ [c] |}.

(** ** State-and-exception monad

    A raised exception keeps the state reached so far: what was written
    before the failure stays written. *)

Definition M (A : Type) : Type := World -> World * Py.result A.

Definition ret {A} (a : A) : M A := fun w => (w, inr a).

Definition raise {A} (e : Py.exn) : M A := fun w => (w, inl e).

Definition bind {A B} (m : M A) (k : A -> M B) : M B :=
  fun w =>
    match m w with
    | (w', inr a) => k a w'
    | (w', inl e) => (w', inl e)
    end.

Definition lift {A} (r : Py.result A) : M A := fun w => (w, r).

Definition gets {A} (f : World -> A) : M A := fun w => (w, inr (f w)).

Definition modify (f : World -> World) : M unit := fun w => (f w, inr tt).

#[global] Instance M_ret : MRet M := @ret.
#[global] Instance M_bind : MBind M := fun A B k m => bind m k.

(** ** Collaborators

    The functions and classes [ocratoken.py] imports from the rest of the
    package.  The suite engine, the base token class, user resolution, the
    image renderer and the random sources are interfaces here. *)

Class Platform : Type := {
  (** [OCRASuite] objects and [OCRA] objects *)
  suite : Type;
  ocra : Type;
  (** [get_user_from_param(param, optional)]; [None] is the empty user,
      which tests false *)
  get_user_from_param : Py.dict -> Py.result (option User);
  (** [OCRASuite(ocrasuite)]: parses the descriptor or raises *)
  OCRASuite : Py.val -> Py.result suite;
  (** [OCRASuite.create_challenge()], from one draw of the random source *)
  OCRASuite_create_challenge : suite -> nat -> string;
  (** [OCRA(ocrasuite, security_object=key)] *)
  OCRA : Py.val -> hashlib.bytes -> Py.result ocra;
  (** [OCRA.check_response(passw, question=challenge)] *)
  OCRA_check_response : ocra -> Py.val -> Py.val -> Py.result Z;
  (** [TokenClass.update(self, param)] *)
  TokenClass_update : Py.dict -> Token -> Token * Py.result unit;
  (** [TokenClass.get_import_csv(l)] *)
  TokenClass_get_import_csv : list string -> Py.result Py.dict;
  (** [create_img(data)] *)
  create_img : Py.val -> string;
  (** the system random source, indexed by the number of draws so far *)
  urandom : nat -> nat;
  (** the transaction id the challenge table makes from one draw *)
  create_transaction_id : nat -> string
}.

Section OcraToken.

Context `{P : Platform}.

(** One draw of the random source. *)
Definition draw : M nat :=
  fun w => (set_cursor (S (cursor w)) w, inr (urandom (cursor w))).

(** *** [privacyidea.lib.config] *)

(** Modelled from the spec: [get_from_config(key, default)] is missing from
    the sources; it is the configured value of [key] when one is set and
    [default] otherwise. *)
Definition get_from_config (key : string) (dflt : Py.val) : M Py.val :=
  gets (fun w => Py.get_default (config w) key dflt).

(** *** [privacyidea.api.lib.utils] *)

(** Modelled from the spec: [getParam(param, key, default=d)] is missing
    from the sources; it is the entry of the parameter bag, or the default
    when the bag has none. *)
Definition getParam (param : Py.dict) (key : string) (dflt : Py.val) : Py.val :=
  Py.get_default param key dflt.

(** *** [privacyidea.lib.crypto] *)

Definition alphanum : string :=
  "abcdefghijklmnopqrstuvwxyzABCDEFGHIJKLMNOPQRSTUVWXYZ0123456789".

Definition choice (alphabet : string) (r : nat) : ascii :=
  match String.get (r mod String.length alphabet)%nat alphabet with
  | Some c => c
  | None => "0"%char
  end.

Fixpoint random_str (alphabet : string) (from n : nat) : string :=
  match n with
  | O => EmptyString
  | S n' => String (choice alphabet (urandom from)) (random_str alphabet (S from) n')
  end.

(** Modelled from the spec: [get_alphanum_str(length)] is missing from the
    sources; it is a string of [length] characters, each drawn from the
    ASCII letters and digits.  A negative length gives the empty string. *)
Definition get_alphanum_str (length : Z) : M string :=
  fun w =>
    let n := Z.to_nat length in
    (set_cursor (cursor w + n)%nat w, inr (random_str alphanum (cursor w) n)).

(** *** [privacyidea.models.Challenge] *)

(** Modelled from the spec: the constructor of the challenge row is missing
    from the sources; it keeps the transaction id it is given and makes a
    fresh one when it is given none. *)
Definition Challenge_new (serial_ : string) (transaction_id_ challenge_ data_ session_ : Py.val)
    (validitytime_ : Z) : M Challenge :=
  tid ← (if Py.truthy transaction_id_ then ret transaction_id_
         else r ← draw; ret (Py.Str (create_transaction_id r)));
  ret {| ch_serial := serial_; transaction_id := tid; challenge := challenge_;
         data := data_; session := session_; validitytime := validitytime_ |}.

(** Modelled from the spec: [Challenge.save] is missing from the sources;
    the challenge table is an append-only sink and the row is appended. *)
Definition Challenge_save (c : Challenge) : M unit :=
  modify (fun w => log_call (Call_Challenge_save c) (set_challenges (challenges w ++ [c]) w)).

(** *** [privacyidea.lib.tokenclass.TokenClass] *)

Definition with_tokeninfo (ti : gmap string Py.val) (t : Token) : Token :=
  {| serial := serial t; tokentype := tokentype t; tokeninfo := ti; user := user t;
     realms := realms t; otpkey := otpkey t; locked := locked t;
     hKeyRequired := hKeyRequired t |}.

Definition with_user (u : option User) (t : Token) : Token :=
  {| serial := serial t; tokentype := tokentype t; tokeninfo := tokeninfo t; user := u;
     realms := realms t; otpkey := otpkey t; locked := locked t;
     hKeyRequired := hKeyRequired t |}.

Definition with_realms (rs : list string) (t : Token) : Token :=
  {| serial := serial t; tokentype := tokentype t; tokeninfo := tokeninfo t; user := user t;
     realms := rs; otpkey := otpkey t; locked := locked t;
     hKeyRequired := hKeyRequired t |}.

Definition with_type (ty : string) (required : bool) (t : Token) : Token :=
  {| serial := serial t; tokentype := ty; tokeninfo := tokeninfo t; user := user t;
     realms := realms t; otpkey := otpkey t; locked := locked t;
     hKeyRequired := required |}.

Definition user_eqb (a b : User) : bool :=
  (String.eqb (login a) (login b) && String.eqb (realm a) (realm b))%bool.

(** Modelled from the spec: [TokenClass.add_user] is missing from the
    sources; it makes the user/realm binding: the token gets the user as
    owner and the user's realm as its realm.  The binding is set at most
    once, the first binding wins and rebinding to another identity is
    refused. *)
Definition add_user (u : User) : M unit :=
  fun w =>
    let w1 := log_call (Call_add_user u) w in
    match user (self w) with
    | None =>
        ret tt (set_self (with_realms [realm u] (with_user (Some u) (self w))) w1)
    | Some u0 =>
        if user_eqb u0 u then ret tt (set_self (with_realms [realm u] (self w)) w1)
        else raise Py.TokenAdminError w1
    end.

(** Modelled from the spec: [TokenClass.add_tokeninfo(key, value)] is
    missing from the sources; the value is stored as token metadata under
    the key. *)
Definition add_tokeninfo (key : string) (value : Py.val) : M unit :=
  modify (fun w => log_call (Call_add_tokeninfo key value)
                     (set_self (with_tokeninfo (<[key := value]> (tokeninfo (self w))) (self w)) w)).

(** Modelled from the spec: [TokenClass.get_tokeninfo(key)] is missing
    from the sources; it reads the token metadata and is [None] when the
    key is not set. *)
Definition get_tokeninfo (key : string) : M Py.val :=
  gets (fun w => Py.get (tokeninfo (self w)) key).

(** Modelled from the spec: [TokenClass.set_realms(realms)] is missing
    from the sources; the token is assigned the realms given. *)
Definition set_realms (rs : list string) : M unit :=
  modify (fun w => log_call (Call_set_realms rs) (set_self (with_realms rs (self w)) w)).

(** Modelled from the spec: [TokenClass.get_tokentype()] is missing from
    the sources; it is the type recorded on the token row. *)
Definition get_tokentype : M string := gets (fun w => tokentype (self w)).

(** Modelled from the spec: [self.token.get_otpkey()] is missing from the
    sources; it reads the token's secret key. *)
Definition get_otpkey : M hashlib.bytes := gets (fun w => otpkey (self w)).

(** [TokenClass.update(self, param)], run on the token object. *)
Definition base_update (param : Py.dict) : M unit :=
  fun w =>
    let '(t, r) := TokenClass_update param (self w) in
    (set_self t (log_call (Call_TokenClass_update param) w), r).

(** The decorator [check_token_locked] of [privacyidea.lib.decorators] is
    missing from the sources.  Whether it lets a call through is the
    [locked] flag of the token: a locked token refuses the call with
    [TokenAdminError] before the method is entered, any other token runs the
    method unchanged. *)
Definition check_token_locked {A} (method : M A) : M A :=
  fun w => if locked (self w) then raise Py.TokenAdminError w else method w.

(** ** [OcraTokenClass] *)

Definition OCRA_DEFAULT_SUITE : string := "OCRA-1:HOTP-SHA1-8:QH40".

Definition get_class_type : string := "ocra".

Definition get_class_prefix : string := "OCRA".

(** [__init__(self, db_token)]: the type is set to "ocra" and
    [hKeyRequired] to [False]. *)
Definition init (db_token : Token) : Token := with_type "ocra" false db_token.

(** [update(self, param)] *)
Definition update (param : Py.dict) : M unit :=
  user_object ← lift (get_user_from_param param);
  match user_object with Some u => add_user u | None => ret tt end;;
  let ocrasuite := getParam param "ocrasuite" (Py.Str OCRA_DEFAULT_SUITE) in
  lift (OCRASuite ocrasuite);;
  add_tokeninfo "ocrasuite" ocrasuite;;
  base_update param;;
  match user_object with Some u => set_realms [realm u] | None => ret tt end.

(** The digest step of [create_challenge]:
    [hexlify_and_unicode(hashlib.<h>(to_bytes(challenge)).digest())]. *)
Definition hexdigest (h : hashlib.bytes -> hashlib.bytes) (challenge_ : Py.val) : Py.result Py.val :=
  match challenge_ with
  | Py.Str s => inr (Py.Str (hexlify_and_unicode (h (to_bytes s))))
  | _ => inl Py.TypeError
  end.

(** The return value of [create_challenge]. *)
Record Reply : Type := {
  success : bool;
  message : string;
  reply_transaction_id : Py.val;
  reply_dict : gmap string (gmap string Py.val)
}.

(** Lines 199-203 of [create_challenge]: the validity window.  The global
    default is read and converted first; it is then the fallback of the
    lookup under the token type's own key. *)
Definition resolve_validity : M Z :=
  dflt ← get_from_config "DefaultChallengeValidityTime" (Py.Int 120);
  validity ← lift (Py.int dflt);
  ty ← get_tokentype;
  let tokentype_ := Py.lower ty in
  let lookup_for := Py.capitalize tokentype_ ++ "ChallengeValidityTime" in
  v ← get_from_config lookup_for (Py.Int validity);
  lift (Py.int v).

(** Lines 208-228 of [create_challenge]: the challenge that will be stored
    and the attributes collected on the way. *)
Definition choose_challenge (options : Py.dict) (ocrasuite : Py.val)
    (attributes : gmap string Py.val) : M (Py.val * gmap string Py.val) :=
  let challenge_ := Py.get options "challenge" in
  if negb (Py.truthy challenge_) then
    os ← lift (OCRASuite ocrasuite);
    r ← draw;
    ret (Py.Str (OCRASuite_create_challenge os r), attributes)
  else
    challenge_ ←
      (if Py.truthy (Py.get options "addrandomchallenge") then
         n ← lift (Py.int (Py.get options "addrandomchallenge"));
         suffix ← get_alphanum_str n;
         lift (Py.add_str challenge_ suffix)
       else ret challenge_);
    let attributes := <["original_challenge" := challenge_]> attributes in
    let attributes := <["qrcode" := Py.Str (create_img challenge_)]> attributes in
    h ← lift (Py.lower_val (Py.get_default options "hashchallenge" (Py.Str "")));
    if String.eqb h "sha256" then
      c ← lift (hexdigest hashlib.sha256 challenge_); ret (c, attributes)
    else
      h ← lift (Py.lower_val (Py.get_default options "hashchallenge" (Py.Str "")));
      if String.eqb h "sha512" then
        c ← lift (hexdigest hashlib.sha512 challenge_); ret (c, attributes)
      else if Py.truthy (Py.get options "hashchallenge") then
        c ← lift (hexdigest hashlib.sha1 challenge_); ret (c, attributes)
      else ret (challenge_, attributes).

(** [create_challenge(self, transactionid=None, options=None)] *)
Definition create_challenge (transactionid : Py.val) (options : option Py.dict) : M Reply :=
  let options := default ∅ options in
  let message_ := "Please answer the challenge" in
  let attributes : gmap string Py.val := ∅ in
  validity ← resolve_validity;
  info ← get_tokeninfo "ocrasuite";
  let ocrasuite := Py.or_ info (Py.Str OCRA_DEFAULT_SUITE) in
  '(challenge_, attributes) ← choose_challenge options ocrasuite attributes;
  serial_ ← gets (fun w => serial (self w));
  db_challenge ← Challenge_new serial_ Py.None_ challenge_ Py.None_ Py.None_ validity;
  Challenge_save db_challenge;;
  let attributes := <["challenge" := challenge_]> attributes in
  let reply_dict_ : gmap string (gmap string Py.val) := {["attributes" := attributes]} in
  ret {| success := true; message := message_;
         reply_transaction_id := transaction_id db_challenge;
         reply_dict := reply_dict_ |}.

(** [verify_response(self, passw=None, challenge=None)] *)
Definition verify_response (passw challenge_ : Py.val) : M Z :=
  ocrasuite ← get_tokeninfo "ocrasuite";
  security_object ← get_otpkey;
  ocra_object ← lift (OCRA ocrasuite security_object);
  modify (log_call (Call_check_response passw challenge_));;
  r ← lift (OCRA_check_response ocra_object passw challenge_);
  ret r.

(** [options['challenge']], where [options] may be [None]. *)
Definition subscript (options : option Py.dict) (key : string) : Py.result Py.val :=
  match options with
  | Some d => Py.getitem d key
  | None => inl Py.TypeError
  end.

(** [check_otp(self, otpval, counter=None, window=None, options=None)],
    decorated with [check_token_locked]. *)
Definition check_otp (otpval counter window : Py.val) (options : option Py.dict) : M Z :=
  check_token_locked
    (challenge_ ← lift (subscript options "challenge");
     verify_response otpval challenge_).

(** [get_import_csv(l)] *)
Definition get_import_csv (l : list string) : Py.result Py.dict :=
  match TokenClass_get_import_csv l with
  | inl e => inl e
  | inr params =>
      let params := match params !! "otplen" with
                    | Some _ => delete "otplen" params
                    | None => params
                    end in
      let params := if (4 <=? length l)%nat
                    then <["ocrasuite" := Py.Str (Py.strip (nth 3 l ""))]> params
                    else params in
      inr params
  end.

(** ** Descriptions used in the statements *)

(** The ordered lookup of the specification: the token type's own key,
    then the global default, then 120 seconds. *)
Definition ordered_validity_lookup (cfg : gmap string Py.val) : Py.val :=
  match cfg !! "OcraChallengeValidityTime" with
  | Some x => x
  | None =>
      match cfg !! "DefaultChallengeValidityTime" with
      | Some y => y
      | None => Py.Int 120
      end
  end.

(** The digest the hashing option selects, after the specification:
    SHA-256 for "sha256", SHA-512 for "sha512", SHA-1 for any other
    non-empty value, and none when the option is empty or absent.  [h] is
    the option in lower case. *)
Definition selected_digest (h : string) : option (hashlib.bytes -> hashlib.bytes) :=
  if String.eqb h "sha256" then Some hashlib.sha256
  else if String.eqb h "sha512" then Some hashlib.sha512
  else if String.eqb h "" then None
  else Some hashlib.sha1.

(** The option maps of the worked examples. *)
Definition options_sha256 : Py.dict :=
  <["challenge" := Py.Str "12345678"]> (<["hashchallenge" := Py.Str "sha256"]> ∅).

Definition options_random : Py.dict :=
  <["challenge" := Py.Str "ABCDEFGH"]> (<["addrandomchallenge" := Py.Int 4]> ∅).

(** The validity window as a function of the configuration and the token
    type; [resolve_validity] computes it and leaves the world alone. *)
Definition validity_of (w : World) : Py.result Z :=
  match Py.int (Py.get_default (config w) "DefaultChallengeValidityTime" (Py.Int 120)) with
  | inl e => inl e
  | inr v0 =>
      Py.int (Py.get_default (config w)
                (Py.capitalize (Py.lower (tokentype (self w))) ++ "ChallengeValidityTime")
                (Py.Int v0))
  end.

(** The row [create_challenge] stores for a challenge value and a validity
    window, in the world reached after the challenge was chosen. *)
Definition stored_row (w2 : World) (c : Py.val) (v : Z) : Challenge :=
  {| ch_serial := serial (self w2);
     transaction_id := Py.Str (create_transaction_id (urandom (cursor w2)));
     challenge := c; data := Py.None_; session := Py.None_; validitytime := v |}.

Definition suite_of (w : World) : Py.val :=
  Py.or_ (Py.get (tokeninfo (self w)) "ocrasuite") (Py.Str OCRA_DEFAULT_SUITE).

(** The random-suffix step of the caller-supplied branch. *)
Definition augment (options : Py.dict) (challenge_ : Py.val) (w : World) : World * Py.result Py.val :=
  if Py.truthy (Py.get options "addrandomchallenge") then
    match Py.int (Py.get options "addrandomchallenge") with
    | inl e => (w, inl e)
    | inr n =>
        (set_cursor (cursor w + Z.to_nat n)%nat w,
         Py.add_str challenge_ (random_str alphanum (cursor w) (Z.to_nat n)))
    end
  else (w, inr challenge_).

(** The hashing step of the caller-supplied branch. *)
Definition digest_step (options : Py.dict) (clear : Py.val) : Py.result Py.val :=
  match Py.lower_val (Py.get_default options "hashchallenge" (Py.Str "")) with
  | inl e => inl e
  | inr h =>
      if String.eqb h "sha256" then hexdigest hashlib.sha256 clear
      else if String.eqb h "sha512" then hexdigest hashlib.sha512 clear
      else if Py.truthy (Py.get options "hashchallenge") then hexdigest hashlib.sha1 clear
      else inr clear
  end.

End OcraToken.

(** ** A reference platform

    One concrete choice of collaborators, used to run the methods on
    explicit inputs. *)

Module Reference.

Fixpoint split_on (sep : ascii) (s : string) : list string :=
  match s with
  | EmptyString => [EmptyString]
  | String c r =>
      if Ascii.eqb c sep then EmptyString :: split_on sep r
      else match split_on sep r with
           | f :: fs => String c f :: fs
           | [] => [String c EmptyString]
           end
  end.

Definition upper (s : string) : string := Py.map_string Py.upper_char s.

(** Modelled from the spec: the suite engine is missing from the sources;
    a descriptor is taken to be three fields separated by colons, the
    first naming the algorithm [OCRA-1]; anything else is malformed. *)
Definition parse_suite (v : Py.val) : Py.result (list string) :=
  match v with
  | Py.Str s =>
      match split_on ":" (upper s) with
      | [algo; crypto; datainput] =>
          if String.eqb algo "OCRA-1" then inr [algo; crypto; datainput]
          else inl (Py.Exception_ "Error in algorithm")
      | _ => inl (Py.Exception_ "The OCRAsuite consists of three fields")
      end
  | _ => inl Py.AttributeError
  end.

(** A generated question: forty hexadecimal digits made from the draw. *)
Definition make_question (s : list string) (r : nat) : string :=
  hexlify_and_unicode (hashlib.be_bytes 20 (Z.of_nat r)).

(** The expected response to a question under a key: the first eight
    hexadecimal digits of the SHA-1 digest of key and question. *)
Definition expected_response (key : hashlib.bytes) (question : string) : string :=
  substring 0 8 (hexlify_and_unicode (hashlib.sha1 (key ++ to_bytes question))).

Definition check (o : list string * hashlib.bytes) (passw question : Py.val) : Py.result Z :=
  match passw, question with
  | Py.Str p, Py.Str q => inr (if String.eqb p (expected_response (snd o) q) then 1 else -1)
  | _, _ => inl Py.TypeError
  end.

(** The identity named by the [user] and [realm] parameters, if any. *)
Definition resolve_user (param : Py.dict) : Py.result (option User) :=
  match Py.get param "user", Py.get param "realm" with
  | Py.Str u, Py.Str r =>
      inr (if String.eqb u "" then None else Some {| login := u; realm := r |})
  | Py.Str u, Py.None_ =>
      inr (if String.eqb u "" then None else Some {| login := u; realm := "defrealm" |})
  | Py.None_, _ => inr None
  | _, _ => inl (Py.External "get_user_from_param")
  end.

(** The base importer: serial, key and type from the first three
    columns, and a default OTP length. *)
Definition base_import (l : list string) : Py.result Py.dict :=
  match l with
  | serial_ :: key :: ty :: _ =>
      inr (<["serial" := Py.Str (Py.strip serial_)]>
           (<["otpkey" := Py.Str (Py.strip key)]>
            (<["type" := Py.Str (Py.strip ty)]>
             (<["otplen" := Py.Int 6]> ∅))))
  | _ => inl (Py.External "get_import_csv")
  end.

#[local] Instance platform : Platform := {|
  suite := list string;
  ocra := list string * hashlib.bytes;
  get_user_from_param := resolve_user;
  OCRASuite := parse_suite;
  OCRASuite_create_challenge := make_question;
  OCRA := fun v key => match parse_suite v with
                       | inr s => inr (s, key)
                       | inl e => inl e
                       end;
  OCRA_check_response := check;
  TokenClass_update := fun _ t => (t, inr tt);
  TokenClass_get_import_csv := base_import;
  create_img := fun v => match v with
                         | Py.Str s => "data:image/png;base64," ++ s
                         | _ => "data:image/png;base64,"
                         end;
  urandom := fun n => (17 * n + 5)%nat;
  create_transaction_id := fun r => hexlify_and_unicode (hashlib.be_bytes 10 (Z.of_nat r + 1000003))
|}.

(** A freshly created OCRA token and the world around it. *)
Definition db_token : Token := {|
  serial := "OCRA0001";
  tokentype := "";
  tokeninfo := ∅;
  user := None;
  realms := [];
  otpkey := to_bytes "12345678901234567890";
  locked := false;
  hKeyRequired := true
|}.

Definition world0 : World := {|
  self := init db_token;
  challenges := [];
  config := ∅;
  cursor := 0;
  journal := []
|}.

(** Parameter bags with a descriptor the suite grammar rejects, with and
    without a user. *)
Definition param_bogus : Py.dict := <["ocrasuite" := Py.Str "bogus"]> ∅.

Definition param_bogus_user : Py.dict :=
  <["user" := Py.Str "alice"]> (<["realm" := Py.Str "realm1"]> param_bogus).

Definition alice : User := {| login := "alice"; realm := "realm1" |}.

(** Option maps for [create_challenge] and [check_otp]. *)
Definition options_hash_only : Py.dict := <["hashchallenge" := Py.Str "sha256"]> ∅.

Definition options_upper : Py.dict :=
  <["challenge" := Py.Str "12345678"]> (<["hashchallenge" := Py.Str "SHA256"]> ∅).

Definition options_plain : Py.dict := <["challenge" := Py.Str "12345678"]> ∅.

Definition options_empty_challenge : Py.dict := <["challenge" := Py.Str ""]> ∅.

Definition options_no_challenge : Py.dict := <["transaction_id" := Py.Str "0123456789"]> ∅.

(** A world whose configuration sets both validity times. *)
Definition world_configured : World := {|
  self := init db_token;
  challenges := [];
  config := <["OcraChallengeValidityTime" := Py.Str "60"]>
              (<["DefaultChallengeValidityTime" := Py.Str "300"]> ∅);
  cursor := 0;
  journal := []
|}.

(** Parameters of a regular enrollment, and the world after it. *)
Definition param_alice : Py.dict :=
  <["user" := Py.Str "alice"]>
    (<["realm" := Py.Str "realm1"]> (<["ocrasuite" := Py.Str "OCRA-1:HOTP-SHA1-6:QN08"]> ∅)).

Definition world_enrolled : World := fst (update param_alice world0).

(** A row of an import file. *)
Definition csv_row : list string := ["user1"; "pw"; "pin"; "OCRA-1:HOTP-SHA1-6:QN08"].

End Reference.

(** ** The class description

    [get_class_info] answers from a literal dictionary.  Its values are
    strings, lists and nested dictionaries; a dictionary keeps its entries in
    insertion order and a later entry under the same key replaces the
    earlier one in place, as a Python dictionary display does. *)

#[local] Unset Elimination Schemes.

Inductive info : Type :=
| IStr (s : string)
| IList (l : list info)
| IDict (d : list (string * info)).

#[local] Set Elimination Schemes.

Fixpoint dict_set (k : string) (v : info) (d : list (string * info)) : list (string * info) :=
  match d with
  | [] => [(k, v)]
  | (k', v') :: r =>
      if String.eqb k' k then (k', v) :: r else (k', v') :: dict_set k v r
  end.

(** [{k1: v1, k2: v2, ...}] *)
Definition dict_display (items : list (string * info)) : list (string * info) :=
  fold_left (fun d kv => dict_set (fst kv) (snd kv) d) items [].

(** [d.get(k)] as an option *)
Fixpoint dict_get (k : string) (d : list (string * info)) : option info :=
  match d with
  | [] => None
  | (k', v) :: r => if String.eqb k' k then Some v else dict_get k r
  end.

(** The names [ocratoken.py] imports from [privacyidea.lib.policy] and the
    translation function [_] of [privacyidea.lib]. *)
Class PolicyNames : Type := {
  SCOPE_ENROLL : string;
  ACTION_MAXTOKENUSER : string;
  ACTION_MAXACTIVETOKENUSER : string;
  GROUP_TOKEN : string;
  gettext : string -> string
}.

Section ClassInfo.

Context `{N : PolicyNames}.

(** The dictionary [res] of [get_class_info]. *)
Definition class_info_res : list (string * info) :=
  dict_display
    [("type", IStr "ocra");
     ("title", IStr "OCRA Token");
     ("description", IStr (gettext "OCRA: Enroll an OCRA token."));
     ("init", IDict (dict_display []));
     ("config", IDict (dict_display []));
     ("ui_enroll", IList []);
     ("policy",
      IDict (dict_display
        [(SCOPE_ENROLL,
          IDict (dict_display
            [(ACTION_MAXTOKENUSER,
              IDict (dict_display
                [("type", IStr "int");
                 ("desc", IStr (gettext
                    "The user may only have this maximum number of OCRA tokens assigned."));
                 ("group", IStr GROUP_TOKEN)]));
             (ACTION_MAXACTIVETOKENUSER,
              IDict (dict_display
                [("type", IStr "int");
                 ("desc", IStr (gettext
                    "The user may only have this maximum number of active OCRA tokens assigned."));
                 ("group", IStr GROUP_TOKEN)]))]))]))].

(** [ret == 'all'] *)
Definition is_all (ret : info) : bool :=
  match ret with
  | IStr s => String.eqb s "all"
  | _ => false
  end.

(** [get_class_info(key=None, ret='all')]; [key] is [None] or a string, and
    the empty string tests false like [None].  The decorator [log_with]
    writes the call to the log and is left out. *)
Definition get_class_info (key : option string) (ret : info) : info :=
  match key with
  | Some k =>
      if negb (String.eqb k "") then default (IDict (dict_display [])) (dict_get k class_info_res)
      else if is_all ret then IDict class_info_res else ret
  | None => if is_all ret then IDict class_info_res else ret
  end.

End ClassInfo.

(** ** Further descriptions used in the statements *)

Section MoreDescriptions.

Context `{P : Platform}.

(** The configuration key [create_challenge] builds from the token type
    (lines 201-202). *)
Definition validity_key (ty : string) : string :=
  Py.capitalize (Py.lower ty) ++ "ChallengeValidityTime".

(** The value the validity window is converted from: the entry under the
    type's key, else the global default, else 120. *)
Definition validity_lookup (ty : string) (cfg : gmap string Py.val) : Py.val :=
  match cfg !! validity_key ty with
  | Some x => x
  | None =>
      match cfg !! "DefaultChallengeValidityTime" with
      | Some y => y
      | None => Py.Int 120
      end
  end.

(** The calls a complete run of [update] makes, in order. *)
Definition update_calls (param : Py.dict) : list call :=
  let ocrasuite := getParam param "ocrasuite" (Py.Str OCRA_DEFAULT_SUITE) in
  match get_user_from_param param with
  | inr (Some u) =>
      [Call_add_user u; Call_add_tokeninfo "ocrasuite" ocrasuite;
       Call_TokenClass_update param; Call_set_realms [realm u]]
  | _ => [Call_add_tokeninfo "ocrasuite" ocrasuite; Call_TokenClass_update param]
  end.

(** The journal entries a run has added. *)
Definition new_calls (w w' : World) : list call := drop (length (journal w)) (journal w').

(** The same world around a token whose stored information is [ti]. *)
Definition with_info (ti : gmap string Py.val) (w : World) : World :=
  set_self (with_tokeninfo ti (self w)) w.

End MoreDescriptions.

(** *** White space at the ends of a string

    What it is for a string to begin or end with a white-space character,
    and to consist of white-space characters only, said without reference to
    [Py.strip]. *)

Section WhiteSpace.

Variable sp1 : ascii -> bool.
Variable sp2 : ascii -> ascii -> bool.
Variable sp3 : ascii -> ascii -> ascii -> bool.

(** A list of bytes that is a sequence of white-space characters. *)
Inductive white_run : list ascii -> Prop :=
| white_nil : white_run []
| white_1 a l : sp1 a = true -> white_run l -> white_run (a :: l)
| white_2 a b l : sp2 a b = true -> white_run l -> white_run (a :: b :: l)
| white_3 a b c l : sp3 a b c = true -> white_run l -> white_run (a :: b :: c :: l).

(** The list begins with a white-space character. *)
Definition begins_with (l : list ascii) : bool :=
  match l with
  | [] => false
  | a :: r =>
      (sp1 a
       || match r with
          | [] => false
          | b :: r2 =>
              (sp2 a b
               || match r2 with
                  | [] => false
                  | c :: _ => sp3 a b c
                  end)
          end)%bool
  end.

End WhiteSpace.

Definition white (s : string) : Prop :=
  white_run Py.is_space Py.is_space2 Py.is_space3 (list_ascii_of_string s).

Definition begins_with_space (s : string) : bool :=
  begins_with Py.is_space Py.is_space2 Py.is_space3 (list_ascii_of_string s).

Definition ends_with_space (s : string) : bool :=
  begins_with Py.is_space Py.is_space2_rev Py.is_space3_rev (rev (list_ascii_of_string s)).

Definition is_lower_hex (c : ascii) : bool :=
  let n := nat_of_ascii c in
  ((Nat.leb 48 n && Nat.leb n 57) || (Nat.leb 97 n && Nat.leb n 102))%bool.

(** The number of hexadecimal digits of a digest chosen by the lower-cased
    hashing option. *)
Definition digest_hex_length (h : string) : nat :=
  if String.eqb h "sha256" then 64
  else if String.eqb h "sha512" then 128
  else 40.

(** ** Further inputs on the reference platform *)

Module Samples.

Import Reference.

#[local] Instance names : PolicyNames := {|
  SCOPE_ENROLL := "enroll";
  ACTION_MAXTOKENUSER := "max_token_per_user";
  ACTION_MAXACTIVETOKENUSER := "max_active_token_per_user";
  GROUP_TOKEN := "token";
  gettext := fun s => s
|}.

(** A configuration whose global default is not a number, although the
    type's own key is fine. *)
Definition world_bad_default : World := {|
  self := init db_token;
  challenges := [];
  config := <["OcraChallengeValidityTime" := Py.Str "60"]>
              (<["DefaultChallengeValidityTime" := Py.Str "two minutes"]> ∅);
  cursor := 0;
  journal := []
|}.

(** A token of the derived type "TiQR" with its own validity time. *)
Definition world_tiqr : World := {|
  self := with_type "TiQR" false db_token;
  challenges := [];
  config := <["TiqrChallengeValidityTime" := Py.Str "30"]>
              (<["OcraChallengeValidityTime" := Py.Str "60"]> ∅);
  cursor := 0;
  journal := []
|}.

(** A token whose stored descriptor the suite engine rejects. *)
Definition world_bad_suite : World :=
  with_info (<["ocrasuite" := Py.Str "bogus"]> ∅) world0.

Definition options_suffix : Py.dict :=
  <["challenge" := Py.Str "pay 10 EUR"]> (<["addrandomchallenge" := Py.Str "6"]> ∅).

Definition options_bad_suffix : Py.dict :=
  <["challenge" := Py.Str "pay 10 EUR"]> (<["addrandomchallenge" := Py.Str "six"]> ∅).

Definition options_bad_hash : Py.dict :=
  <["challenge" := Py.Str "pay 10 EUR"]> (<["hashchallenge" := Py.Bool true]> ∅).

Definition options_sha1 : Py.dict :=
  <["challenge" := Py.Str "pay 10 EUR"]> (<["hashchallenge" := Py.Str "yes"]> ∅).

Definition short_row : list string := ["user1"; "pw"; "pin"].

Definition padded_row : list string := ["user1"; "pw"; "pin"; "  OCRA-1:HOTP-SHA1-6:QN08 "].

(** U+00A0 (no-break space) and U+2003 (em space), encoded. *)
Definition nbsp : string := String (ascii_of_nat 194) (String (ascii_of_nat 160) EmptyString).

Definition emsp : string :=
  String (ascii_of_nat 226) (String (ascii_of_nat 128) (String (ascii_of_nat 131) EmptyString)).

(** A row whose fourth column is padded with blanks, a tabulator, a
    no-break space and an em space. *)
Definition unicode_row : list string :=
  ["user1"; "pw"; "pin"; emsp ++ "  OCRA-1:HOTP-SHA1-6:QN08 " ++ nbsp ++ String (ascii_of_nat 9) nbsp].

(** The enrolled token, locked. *)
Definition world_locked : World :=
  set_self {| serial := serial (self world_enrolled);
              tokentype := tokentype (self world_enrolled);
              tokeninfo := tokeninfo (self world_enrolled);
              user := user (self world_enrolled);
              realms := realms (self world_enrolled);
              otpkey := otpkey (self world_enrolled);
              locked := true;
              hKeyRequired := hKeyRequired (self world_enrolled) |} world_enrolled.

Definition param_failing_base : Py.dict := <["ocrasuite" := Py.Str "OCRA-1:HOTP-SHA1-6:QN08"]> ∅.

End Samples.

(** * Properties *)

(** ** The primitives on samples *)

Example sha1_12345678 :
  hexlify_and_unicode (hashlib.sha1 (to_bytes "12345678"))
  = "7c222fb2927d828af22f592134e8932480637c0d".
Proof. vm_compute. reflexivity. Qed.

Example sha256_12345678 :
  hexlify_and_unicode (hashlib.sha256 (to_bytes "12345678"))
  = "ef797c8118f02dfb649607dd5d3f8c7623048c9c063d532cc95c5ed7a898a64f".
Proof. vm_compute. reflexivity. Qed.

Example sha512_abc :
  hexlify_and_unicode (hashlib.sha512 (to_bytes "abc"))
  = "ddaf35a193617abacc417349ae20413112e6fa4e89a97ea20a9eeee64b55d39a2192992a274fc1a836ba3c23a3feebbd454d4423643ce80e2a9ac94fa54ca49f".
Proof. vm_compute. reflexivity. Qed.

Example lower_sha : Py.lower "SHA256" = "sha256".
Proof. reflexivity. Qed.

Example capitalize_ocra : Py.capitalize (Py.lower "OCRA") = "Ocra".
Proof. reflexivity. Qed.

Example strip_suite : Py.strip "  OCRA-1:HOTP-SHA1-6:QN08 " = "OCRA-1:HOTP-SHA1-6:QN08".
Proof. reflexivity. Qed.

Example int_120 : Py.int (Py.Str " 1_20 ") = inr 120.
Proof. reflexivity. Qed.

Example int_bad : Py.int (Py.Str "12x") = inl Py.ValueError.
Proof. reflexivity. Qed.

Example ref_split : Reference.split_on ":" "OCRA-1:HOTP-SHA1-8:QH40" = ["OCRA-1"; "HOTP-SHA1-8"; "QH40"].
Proof. reflexivity. Qed.

Example ref_suite_bad : Reference.parse_suite (Py.Str "bogus") = inl (Py.Exception_ "The OCRAsuite consists of three fields").
Proof. reflexivity. Qed.

(** ** Running computations *)

Ltac unfold_monad :=
  unfold mbind, M_bind, bind, mret, M_ret, ret, lift, gets, modify, raise in *.

Lemma bind_run {A B} (m : M A) (k : A -> M B) (w : World) :
  (m ≫= k) w = match m w with
               | (w', inr a) => k a w'
               | (w', inl e) => (w', inl e)
               end.
Proof. reflexivity. Qed.

Lemma bind_step {A B} (m : M A) (k : A -> M B) (w w1 : World) (a : A) :
  m w = (w1, inr a) -> (m ≫= k) w = k a w1.
Proof. intros H. rewrite bind_run, H. reflexivity. Qed.

Lemma bind_fail {A B} (m : M A) (k : A -> M B) (w w1 : World) (e : Py.exn) :
  m w = (w1, inl e) -> (m ≫= k) w = (w1, inl e).
Proof. intros H. rewrite bind_run, H. reflexivity. Qed.

(** ** White space *)

Section WhiteSpaceFacts.

Variable sp1 : ascii -> bool.
Variable sp2 : ascii -> ascii -> bool.
Variable sp3 : ascii -> ascii -> ascii -> bool.

Lemma trim_front_spec_bounded (n : nat) (l : list ascii) :
  (length l <= n)%nat ->
  exists pre,
    l = (pre ++ Py.trim_front sp1 sp2 sp3 l)%list
    /\ white_run sp1 sp2 sp3 pre
    /\ begins_with sp1 sp2 sp3 (Py.trim_front sp1 sp2 sp3 l) = false.
Proof.
  revert l. induction n as [| n IH]; intros l Hlen.
  - destruct l; [| cbn [length] in Hlen; lia].
    exists []. repeat split. constructor.
  - destruct l as [| a r]; [exists []; repeat split; constructor |].
    cbn [Py.trim_front]. cbn [length] in Hlen.
    destruct (sp1 a) eqn:H1.
    { destruct (IH r) as (pre & Heq & Hw & Hb); [lia |].
      exists (a :: pre). cbn [app]. rewrite <- Heq.
      repeat split; [constructor; assumption | exact Hb]. }
    destruct r as [| b r2].
    { exists []. repeat split; [constructor |]. cbn [begins_with]. rewrite H1. reflexivity. }
    cbn [length] in Hlen.
    destruct (sp2 a b) eqn:H2.
    { destruct (IH r2) as (pre & Heq & Hw & Hb); [lia |].
      exists (a :: b :: pre). cbn [app]. rewrite <- Heq.
      repeat split; [apply white_2; assumption | exact Hb]. }
    destruct r2 as [| c r3].
    { exists []. repeat split; [constructor |]. cbn [begins_with]. rewrite H1, H2. reflexivity. }
    cbn [length] in Hlen.
    destruct (sp3 a b c) eqn:H3.
    { destruct (IH r3) as (pre & Heq & Hw & Hb); [lia |].
      exists (a :: b :: c :: pre). cbn [app]. rewrite <- Heq.
      repeat split; [apply white_3; assumption | exact Hb]. }
    exists []. repeat split; [constructor |]. cbn [begins_with]. rewrite H1, H2, H3. reflexivity.
Qed.

Lemma trim_front_spec (l : list ascii) :
  exists pre,
    l = (pre ++ Py.trim_front sp1 sp2 sp3 l)%list
    /\ white_run sp1 sp2 sp3 pre
    /\ begins_with sp1 sp2 sp3 (Py.trim_front sp1 sp2 sp3 l) = false.
Proof. apply (trim_front_spec_bounded (length l)). lia. Qed.

Lemma trim_front_id (l : list ascii) :
  begins_with sp1 sp2 sp3 l = false -> Py.trim_front sp1 sp2 sp3 l = l.
Proof.
  destruct l as [| a [| b [| c r]]]; cbn [begins_with Py.trim_front]; try reflexivity.
  - destruct (sp1 a); [discriminate | reflexivity].
  - destruct (sp1 a); [discriminate |]. destruct (sp2 a b); [discriminate | reflexivity].
  - destruct (sp1 a); [discriminate |]. destruct (sp2 a b); [discriminate |].
    destruct (sp3 a b c); [discriminate | reflexivity].
Qed.

Lemma begins_with_app (p q : list ascii) :
  begins_with sp1 sp2 sp3 (p ++ q) = false -> begins_with sp1 sp2 sp3 p = false.
Proof.
  destruct p as [| a [| b [| c r]]]; cbn [app begins_with]; try reflexivity.
  - destruct (sp1 a); [| reflexivity]. destruct q; discriminate.
  - destruct (sp1 a); [destruct q; discriminate |].
    destruct (sp2 a b); [| reflexivity]. destruct q; discriminate.
  - intros H; exact H.
Qed.

Lemma white_run_app (x y : list ascii) :
  white_run sp1 sp2 sp3 x -> white_run sp1 sp2 sp3 y -> white_run sp1 sp2 sp3 (x ++ y).
Proof.
  intros Hx Hy. induction Hx; cbn [app]; [exact Hy | | |]; constructor; assumption.
Qed.

End WhiteSpaceFacts.

Lemma white_run_rev (sp1 : ascii -> bool) (sp2 sp2' : ascii -> ascii -> bool)
    (sp3 sp3' : ascii -> ascii -> ascii -> bool) (x : list ascii) :
  (forall a b, sp2' b a = sp2 a b) ->
  (forall a b c, sp3' c b a = sp3 a b c) ->
  white_run sp1 sp2' sp3' x -> white_run sp1 sp2 sp3 (rev x).
Proof.
  intros H2 H3 Hx. induction Hx as [| a l Ha _ IH | a b l Hab _ IH | a b c l Habc _ IH].
  - constructor.
  - cbn [rev]. apply white_run_app; [exact IH |]. apply white_1; [exact Ha | constructor].
  - cbn [rev]. rewrite <- app_assoc. apply white_run_app; [exact IH |].
    cbn [app]. apply white_2; [rewrite <- H2; exact Hab | constructor].
  - cbn [rev]. rewrite <- !app_assoc. apply white_run_app; [exact IH |].
    cbn [app]. apply white_3; [rewrite <- H3; exact Habc | constructor].
Qed.

Lemma string_of_list_ascii_app (x y : list ascii) :
  string_of_list_ascii (x ++ y) = string_of_list_ascii x ++ string_of_list_ascii y.
Proof. induction x as [| a x IH]; [reflexivity |]. cbn. rewrite IH. reflexivity. Qed.

(** What [Py.strip] does: it cuts a white-space run off each end, and what
    is left neither begins nor ends with a white-space character. *)
Lemma strip_spec (s : string) :
  exists pre post,
    s = pre ++ Py.strip s ++ post
    /\ white pre /\ white post
    /\ begins_with_space (Py.strip s) = false
    /\ ends_with_space (Py.strip s) = false
    /\ Py.strip (Py.strip s) = Py.strip s.
Proof.
  unfold Py.strip, Py.lstrip, Py.rstrip, Py.lstrip_by, Py.rstrip_by.
  rewrite !list_ascii_of_string_of_list_ascii.
  set (l := list_ascii_of_string s).
  destruct (trim_front_spec Py.is_space Py.is_space2 Py.is_space3 l) as (pre & Hl & Hpre & Hbt).
  set (t := Py.trim_front Py.is_space Py.is_space2 Py.is_space3 l) in *.
  destruct (trim_front_spec Py.is_space Py.is_space2_rev Py.is_space3_rev (rev t))
    as (q & Ht & Hq & Hbu).
  set (u := Py.trim_front Py.is_space Py.is_space2_rev Py.is_space3_rev (rev t)) in *.
  assert (Ht' : t = (rev u ++ rev q)%list).
  { rewrite <- (rev_involutive t), Ht, rev_app_distr. reflexivity. }
  assert (Hbru : begins_with Py.is_space Py.is_space2 Py.is_space3 (rev u) = false).
  { apply (begins_with_app _ _ _ (rev u) (rev q)). rewrite <- Ht'. exact Hbt. }
  exists (string_of_list_ascii pre), (string_of_list_ascii (rev q)).
  split; [| split; [| split; [| split; [| split]]]].
  - rewrite <- !string_of_list_ascii_app, <- Ht', <- Hl. unfold l.
    symmetry. apply string_of_list_ascii_of_string.
  - unfold white. rewrite list_ascii_of_string_of_list_ascii. exact Hpre.
  - unfold white. rewrite list_ascii_of_string_of_list_ascii.
    apply (white_run_rev _ _ Py.is_space2_rev _ Py.is_space3_rev); [reflexivity | reflexivity | exact Hq].
  - unfold begins_with_space. rewrite list_ascii_of_string_of_list_ascii. exact Hbru.
  - unfold ends_with_space. rewrite list_ascii_of_string_of_list_ascii, rev_involutive. exact Hbu.
  - rewrite (trim_front_id _ _ _ _ Hbru), rev_involutive, (trim_front_id _ _ _ _ Hbu).
    reflexivity.
Qed.

Section Properties.

Context `{P : Platform}.

Lemma init_tokentype (db_token : Token) : tokentype (init db_token) = "ocra".
Proof. reflexivity. Qed.

(** ** Response verification *)

(** C9: when the options map has no "challenge" entry, check_otp raises
    and leaves the world as it was, so the engine's response check is never
    reached and no integer (in particular not -1) is returned.  The
    exception is the KeyError of the missing key; on a locked token the
    decorator's TokenAdminError comes first. *)
Theorem check_otp_missing_challenge
    (otpval counter window : Py.val) (options : Py.dict) (w : World) :
  options !! "challenge" = None ->
  check_otp otpval counter window (Some options) w
    = (w, inl (if locked (self w) then Py.TokenAdminError else Py.KeyError "challenge"))
  /\ (forall r : Z, snd (check_otp otpval counter window (Some options) w) <> inr r)
  /\ journal (fst (check_otp otpval counter window (Some options) w)) = journal w.
Proof.
  intros Hmiss.
  assert (Hrun : check_otp otpval counter window (Some options) w
            = (w, inl (if locked (self w) then Py.TokenAdminError else Py.KeyError "challenge"))).
  { unfold check_otp, check_token_locked.
    destruct (locked (self w)); [reflexivity |].
    apply bind_fail. unfold lift, subscript, Py.getitem. rewrite Hmiss. reflexivity. }
  rewrite Hrun. repeat split. intros r Hr. discriminate Hr.
Qed.

(** C5: check_otp ignores counter and window.  It is
    verify_response on the password and the "challenge" entry of the
    options behind the lock check of the decorator: on a token that is not
    locked its result is exactly that of verify_response, and on a locked
    token it raises TokenAdminError without entering verify_response. *)
Theorem check_otp_is_verify_response
    (otpval counter window counter' window' ch : Py.val) (options : Py.dict) (w : World) :
  options !! "challenge" = Some ch ->
  check_otp otpval counter window (Some options) w
    = check_otp otpval counter' window' (Some options) w
  /\ check_otp otpval counter window (Some options) w
     = check_token_locked (verify_response otpval ch) w
  /\ (locked (self w) = false ->
      check_otp otpval counter window (Some options) w = verify_response otpval ch w)
  /\ (locked (self w) = true ->
      check_otp otpval counter window (Some options) w = (w, inl Py.TokenAdminError)).
Proof.
  intros Hch.
  assert (Hbody : forall w0,
            (challenge_ ← lift (subscript (Some options) "challenge");
             verify_response otpval challenge_) w0 = verify_response otpval ch w0).
  { intros w0. apply bind_step. unfold lift, subscript, Py.getitem. rewrite Hch. reflexivity. }
  split; [reflexivity |]. split; [| split].
  - unfold check_otp, check_token_locked. destruct (locked (self w)); [reflexivity | apply Hbody].
  - intros Hunlocked. unfold check_otp, check_token_locked. rewrite Hunlocked. apply Hbody.
  - intros Hlocked. unfold check_otp, check_token_locked. rewrite Hlocked. reflexivity.
Qed.

(** ** CSV import *)

(** C8: for a row of at least four columns on which the base importer
    succeeds, the result has no "otplen" entry, whatever the base importer
    returned, and maps "ocrasuite" to the trimmed fourth column: the column
    with the white-space run at each end cut off, so that what is stored
    neither begins nor ends with a white-space character. *)
Theorem get_import_csv_ocrasuite (l : list string) (base : Py.dict) :
  TokenClass_get_import_csv l = inr base ->
  (4 <= length l)%nat ->
  exists params pre s post,
    get_import_csv l = inr params
    /\ params !! "ocrasuite" = Some (Py.Str s)
    /\ s = Py.strip (nth 3 l "")
    /\ nth 3 l "" = pre ++ s ++ post
    /\ white pre /\ white post
    /\ begins_with_space s = false
    /\ ends_with_space s = false
    /\ params !! "otplen" = None.
Proof.
  intros Hbase Hlen. unfold get_import_csv. rewrite Hbase.
  assert (Hle : (4 <=? length l)%nat = true) by (apply Nat.leb_le; exact Hlen).
  rewrite Hle.
  destruct (strip_spec (nth 3 l "")) as (pre & post & Hsplit & Hpre & Hpost & Hb & He & _).
  eexists _, pre, (Py.strip (nth 3 l "")), post.
  split; [reflexivity |]. split; [apply lookup_insert_eq |]. split; [reflexivity |].
  split; [exact Hsplit |]. split; [exact Hpre |]. split; [exact Hpost |].
  split; [exact Hb |]. split; [exact He |].
  rewrite lookup_insert_ne by discriminate.
  destruct (base !! "otplen") eqn:Hotp; [apply lookup_delete_eq | exact Hotp].
Qed.

(** ** Enrollment *)

Lemma add_user_run (u : User) (w : World) :
  exists w1 r,
    add_user u w = (w1, r)
    /\ journal w1 = (journal w ++ [Call_add_user u])%list
    /\ tokeninfo (self w1) = tokeninfo (self w)
    /\ challenges w1 = challenges w
    /\ (realms (self w1) = realms (self w) \/ realms (self w1) = [realm u]).
Proof.
  unfold add_user. destruct (user (self w)) as [u0 |].
  - destruct (user_eqb u0 u); eexists _, _; repeat split; (right; reflexivity) || (left; reflexivity).
  - eexists _, _; repeat split. right. reflexivity.
Qed.

(** C1 (as amended): when the suite engine rejects the descriptor, update
    raises without writing token info, without running the base-class
    update and without reaching its own set_realms call.  The one call that
    can precede the failure is add_user, made when the parameters resolve to
    a user: it may already have bound the token to the user and the user's
    realm.  With no user in the parameters the world is left exactly as it
    was. *)
Theorem update_rejected_suite (param : Py.dict) (w : World) (e : Py.exn) :
  OCRASuite (getParam param "ocrasuite" (Py.Str OCRA_DEFAULT_SUITE)) = inl e ->
  exists w' e',
    update param w = (w', inl e')
    /\ journal w' = (journal w ++ match get_user_from_param param with
                                  | inr (Some u) => [Call_add_user u]
                                  | _ => []
                                  end)%list
    /\ tokeninfo (self w') = tokeninfo (self w)
    /\ challenges w' = challenges w
    /\ (realms (self w') = realms (self w)
        \/ exists u, get_user_from_param param = inr (Some u) /\ realms (self w') = [realm u])
    /\ (get_user_from_param param = inr None -> w' = w /\ e' = e).
Proof.
  intros Hbad. unfold update. rewrite bind_run. unfold lift at 1.
  destruct (get_user_from_param param) as [e0 | [u |]] eqn:Huser.
  - exists w, e0. rewrite app_nil_r.
    repeat split; try discriminate. left. reflexivity.
  - rewrite bind_run.
    destruct (add_user_run u w) as (w1 & r & Hrun & Hj & Hti & Hch & Hre).
    assert (Hrealms : realms (self w1) = realms (self w)
                      \/ exists u0, @inr Py.exn _ (Some u) = inr (Some u0)
                                    /\ realms (self w1) = [realm u0]).
    { destruct Hre as [Hre | Hre]; [left; exact Hre | right; exists u; split; [reflexivity | exact Hre]]. }
    rewrite Hrun. destruct r as [e1 | []].
    + exists w1, e1. repeat split; try assumption; discriminate.
    + rewrite bind_run. unfold lift at 1. rewrite Hbad.
      exists w1, e. repeat split; try assumption; discriminate.
  - rewrite bind_run. unfold mret, M_ret, ret at 1.
    rewrite bind_run. unfold lift at 1. rewrite Hbad.
    exists w, e. rewrite app_nil_r. repeat split; try reflexivity. left. reflexivity.
Qed.

(** ** Challenge issuance *)

Lemma resolve_validity_run (w : World) : resolve_validity w = (w, validity_of w).
Proof.
  unfold resolve_validity, validity_of, get_from_config, get_tokentype.
  unfold_monad.
  destruct (Py.int (Py.get_default (config w) "DefaultChallengeValidityTime" (Py.Int 120)));
    reflexivity.
Qed.

(** [create_challenge] stage by stage. *)
Lemma create_challenge_run (tid : Py.val) (options : option Py.dict) (w : World) :
  create_challenge tid options w =
    match validity_of w with
    | inl e => (w, inl e)
    | inr v =>
        match choose_challenge (default ∅ options) (suite_of w) ∅ w with
        | (w2, inl e) => (w2, inl e)
        | (w2, inr (c, attributes)) =>
            let row := stored_row w2 c v in
            (log_call (Call_Challenge_save row)
               (set_challenges (challenges w2 ++ [row]) (set_cursor (S (cursor w2)) w2)),
             inr {| success := true;
                    message := "Please answer the challenge";
                    reply_transaction_id := transaction_id row;
                    reply_dict := {["attributes" := <["challenge" := c]> attributes]} |})
        end
    end.
Proof.
  unfold create_challenge. rewrite bind_run, resolve_validity_run.
  destruct (validity_of w) as [e | v]; [reflexivity |].
  rewrite bind_run. unfold get_tokeninfo at 1. unfold gets at 1.
  rewrite bind_run. fold (suite_of w).
  destruct (choose_challenge (default ∅ options) (suite_of w) ∅ w) as [w2 [e | [c attributes]]];
    reflexivity.
Qed.

Lemma choose_challenge_run (options : Py.dict) (ocrasuite : Py.val)
    (attributes : gmap string Py.val) (w : World) :
  choose_challenge options ocrasuite attributes w =
    if negb (Py.truthy (Py.get options "challenge")) then
      match OCRASuite ocrasuite with
      | inl e => (w, inl e)
      | inr os =>
          (set_cursor (S (cursor w)) w,
           inr (Py.Str (OCRASuite_create_challenge os (urandom (cursor w))), attributes))
      end
    else
      match augment options (Py.get options "challenge") w with
      | (w1, inl e) => (w1, inl e)
      | (w1, inr clear) =>
          (w1, match digest_step options clear with
               | inl e => inl e
               | inr c => inr (c, <["qrcode" := Py.Str (create_img clear)]>
                                   (<["original_challenge" := clear]> attributes))
               end)
      end.
Proof.
  unfold choose_challenge.
  destruct (negb (Py.truthy (Py.get options "challenge"))).
  - rewrite bind_run. unfold lift at 1.
    destruct (OCRASuite ocrasuite) as [e | os]; reflexivity.
  - rewrite bind_run.
    assert (Haug :
      (if Py.truthy (Py.get options "addrandomchallenge")
       then n ← lift (Py.int (Py.get options "addrandomchallenge"));
            suffix ← get_alphanum_str n;
            lift (Py.add_str (Py.get options "challenge") suffix)
       else ret (Py.get options "challenge")) w
      = augment options (Py.get options "challenge") w).
    { unfold augment. destruct (Py.truthy (Py.get options "addrandomchallenge")); [| reflexivity].
      rewrite bind_run. unfold lift at 1.
      destruct (Py.int (Py.get options "addrandomchallenge")) as [e | n]; reflexivity. }
    rewrite Haug.
    destruct (augment options (Py.get options "challenge") w) as [w1 [e | clear]]; [reflexivity |].
    unfold digest_step. rewrite bind_run. unfold lift at 1.
    destruct (Py.lower_val (Py.get_default options "hashchallenge" (Py.Str ""))) as [e | h] eqn:Hh;
      [reflexivity |].
    destruct (String.eqb h "sha256").
    + rewrite bind_run. unfold lift at 1.
      destruct (hexdigest hashlib.sha256 clear); reflexivity.
    + rewrite bind_run. unfold lift at 1.
      destruct (String.eqb h "sha512").
      * rewrite bind_run. unfold lift at 1.
        destruct (hexdigest hashlib.sha512 clear); reflexivity.
      * destruct (Py.truthy (Py.get options "hashchallenge")); [| reflexivity].
        rewrite bind_run. unfold lift at 1.
        destruct (hexdigest hashlib.sha1 clear); reflexivity.
Qed.

(** Choosing the challenge draws from the random source and touches
    nothing else. *)
Lemma choose_challenge_frame (options : Py.dict) (ocrasuite : Py.val)
    (attributes : gmap string Py.val) (w w2 : World) (r : Py.result (Py.val * gmap string Py.val)) :
  choose_challenge options ocrasuite attributes w = (w2, r) ->
  self w2 = self w /\ challenges w2 = challenges w
  /\ config w2 = config w /\ journal w2 = journal w.
Proof.
  rewrite choose_challenge_run.
  destruct (negb (Py.truthy (Py.get options "challenge"))).
  - destruct (OCRASuite ocrasuite); intros H; inversion H; subst; repeat split.
  - unfold augment.
    destruct (Py.truthy (Py.get options "addrandomchallenge")).
    + destruct (Py.int (Py.get options "addrandomchallenge")) as [e | n].
      * intros H; inversion H; subst; repeat split.
      * destruct (Py.add_str _ _); intros H; inversion H; subst; repeat split.
    + intros H; inversion H; subst; repeat split.
Qed.

(** What a successful [create_challenge] has done. *)
Lemma create_challenge_ok (tid : Py.val) (options : option Py.dict) (w w' : World) (reply : Reply) :
  create_challenge tid options w = (w', inr reply) ->
  exists v w2 c attributes,
    validity_of w = inr v
    /\ choose_challenge (default ∅ options) (suite_of w) ∅ w = (w2, inr (c, attributes))
    /\ challenges w' = (challenges w ++ [stored_row w2 c v])%list
    /\ journal w' = (journal w ++ [Call_Challenge_save (stored_row w2 c v)])%list
    /\ self w' = self w
    /\ reply = {| success := true;
                  message := "Please answer the challenge";
                  reply_transaction_id := transaction_id (stored_row w2 c v);
                  reply_dict := {["attributes" := <["challenge" := c]> attributes]} |}.
Proof.
  rewrite create_challenge_run.
  destruct (validity_of w) as [e | v]; [discriminate |].
  destruct (choose_challenge (default ∅ options) (suite_of w) ∅ w)
    as [w2 [e | [c attributes]]] eqn:Hchoose; [discriminate |].
  destruct (choose_challenge_frame _ _ _ _ _ _ Hchoose) as (Hself & Hch & _ & Hj).
  intros H. inversion H; subst. exists v, w2, c, attributes.
  cbn [challenges journal self log_call set_challenges set_cursor].
  rewrite Hch, Hj, Hself. repeat split.
Qed.

Lemma validity_of_ordered (w : World) (v : Z) :
  tokentype (self w) = "ocra" ->
  validity_of w = inr v ->
  Py.int (ordered_validity_lookup (config w)) = inr v.
Proof.
  intros Hty. unfold validity_of, ordered_validity_lookup. rewrite Hty.
  change (Py.capitalize (Py.lower "ocra") ++ "ChallengeValidityTime")
    with "OcraChallengeValidityTime".
  unfold Py.get_default.
  destruct (config w !! "DefaultChallengeValidityTime") as [y |];
    destruct (config w !! "OcraChallengeValidityTime") as [x |];
    cbn [default from_option id Py.int].
  - destruct (Py.int y) as [e | v0]; [discriminate | intros H; exact H].
  - destruct (Py.int y) as [e | v0]; [discriminate | intros H; exact H].
  - intros H; exact H.
  - intros H; exact H.
Qed.

(** C7: the validity stored with the challenge of an OCRA token is the
    integer value of the first of: the configured
    "OcraChallengeValidityTime", the configured
    "DefaultChallengeValidityTime", 120. *)
Theorem create_challenge_validity
    (tid : Py.val) (options : option Py.dict) (w w' : World) (reply : Reply) :
  tokentype (self w) = "ocra" ->
  create_challenge tid options w = (w', inr reply) ->
  exists row,
    challenges w' = (challenges w ++ [row])%list
    /\ Py.int (ordered_validity_lookup (config w)) = inr (validitytime row).
Proof.
  intros Hty Hrun.
  destruct (create_challenge_ok _ _ _ _ _ Hrun) as (v & w2 & c & attributes & Hv & _ & Hch & _).
  exists (stored_row w2 c v). split; [exact Hch |].
  apply validity_of_ordered; assumption.
Qed.

Lemma lower_empty (s : string) : String.eqb (Py.lower s) "" = String.eqb s "".
Proof. destruct s; reflexivity. Qed.

Lemma digest_step_selected (options : Py.dict) (clear c : Py.val) :
  digest_step options clear = inr c ->
  exists h,
    Py.lower_val (Py.get_default options "hashchallenge" (Py.Str "")) = inr h
    /\ match selected_digest h with
       | Some f => hexdigest f clear = inr c
       | None => c = clear
       end.
Proof.
  unfold digest_step, selected_digest, Py.get, Py.get_default.
  destruct (options !! "hashchallenge") as [hv |]; cbn [default from_option id].
  - destruct hv as [| b | z | s]; cbn [Py.lower_val]; try discriminate.
    intros H. exists (Py.lower s). split; [reflexivity |].
    destruct (String.eqb (Py.lower s) "sha256"); [exact H |].
    destruct (String.eqb (Py.lower s) "sha512"); [exact H |].
    rewrite lower_empty. cbn [Py.truthy] in H.
    destruct (String.eqb s ""); cbn [negb] in H; [| exact H].
    inversion H; reflexivity.
  - cbn [Py.lower_val]. intros H. exists "". split; [reflexivity |].
    cbv in H. inversion H; reflexivity.
Qed.

(** C2 (as amended): a successful create_challenge stores one row.  With a
    caller-supplied challenge, the stored value is the hexadecimal digest
    of the cleartext recorded as original_challenge, under the digest the
    lower-cased hashing option selects, and the cleartext itself when the
    option is empty or absent.  With a generated challenge the stored value
    is the generated cleartext, whatever the hashing option says. *)
Theorem create_challenge_persisted_value
    (tid : Py.val) (options : option Py.dict) (w w' : World) (reply : Reply) :
  create_challenge tid options w = (w', inr reply) ->
  exists row attributes,
    challenges w' = (challenges w ++ [row])%list
    /\ reply_dict reply !! "attributes" = Some attributes
    /\ if Py.truthy (Py.get (default ∅ options) "challenge") then
         exists h,
           Py.lower_val (Py.get_default (default ∅ options) "hashchallenge" (Py.Str "")) = inr h
           /\ match selected_digest h with
              | Some f => hexdigest f (Py.get attributes "original_challenge") = inr (challenge row)
              | None => challenge row = Py.get attributes "original_challenge"
              end
       else
         exists os,
           OCRASuite (suite_of w) = inr os
           /\ challenge row = Py.Str (OCRASuite_create_challenge os (urandom (cursor w))).
Proof.
  intros Hrun.
  destruct (create_challenge_ok _ _ _ _ _ Hrun)
    as (v & w2 & c & attributes & _ & Hchoose & Hch & _ & _ & Hreply).
  exists (stored_row w2 c v), (<["challenge" := c]> attributes).
  split; [exact Hch |]. split; [rewrite Hreply; apply lookup_singleton_eq |].
  rewrite choose_challenge_run in Hchoose.
  destruct (Py.truthy (Py.get (default ∅ options) "challenge")); cbn [negb] in Hchoose.
  - destruct (augment _ _ w) as [w1 [e | clear]]; [discriminate |].
    destruct (digest_step (default ∅ options) clear) as [e | c'] eqn:Hdigest; [discriminate |].
    inversion Hchoose; subst.
    assert (Hclear : Py.get (<["challenge" := c]>
                               (<["qrcode" := Py.Str (create_img clear)]>
                                  (<["original_challenge" := clear]> ∅)))
                            "original_challenge" = clear).
    { unfold Py.get. rewrite !lookup_insert_ne by discriminate.
      rewrite lookup_insert_eq. reflexivity. }
    rewrite Hclear. apply digest_step_selected. exact Hdigest.
  - destruct (OCRASuite (suite_of w)) as [e | os]; [discriminate |].
    inversion Hchoose; subst. exists os. split; reflexivity.
Qed.

Lemma resolve_validity_ok (w : World) (v : Z) :
  resolve_validity w = (w, inr v) -> validity_of w = inr v.
Proof. rewrite resolve_validity_run. intros H. inversion H. reflexivity. Qed.

(** C3: with a challenge of "12345678" and the hashing option "sha256",
    create_challenge stores the lower-case hexadecimal SHA-256 digest of
    "12345678"; the attributes returned hold the cleartext as
    original_challenge, its rendered image as qrcode, and the stored digest
    as challenge. *)
Theorem create_challenge_sha256 (tid : Py.val) (w : World) (v : Z) :
  resolve_validity w = (w, inr v) ->
  exists w' reply row attributes,
    create_challenge tid (Some options_sha256) w = (w', inr reply)
    /\ challenges w' = (challenges w ++ [row])%list
    /\ challenge row = Py.Str (hexlify_and_unicode (hashlib.sha256 (to_bytes "12345678")))
    /\ challenge row
       = Py.Str "ef797c8118f02dfb649607dd5d3f8c7623048c9c063d532cc95c5ed7a898a64f"
    /\ reply_dict reply !! "attributes" = Some attributes
    /\ attributes !! "original_challenge" = Some (Py.Str "12345678")
    /\ attributes !! "qrcode" = Some (Py.Str (create_img (Py.Str "12345678")))
    /\ attributes !! "challenge" = Some (challenge row).
Proof.
  intros Hv. apply resolve_validity_ok in Hv.
  rewrite create_challenge_run, Hv, choose_challenge_run.
  cbn [default from_option id].
  replace (Py.get options_sha256 "challenge") with (Py.Str "12345678") by reflexivity.
  change (negb (Py.truthy (Py.Str "12345678"))) with false. cbv beta iota.
  unfold augment.
  replace (Py.get options_sha256 "addrandomchallenge") with Py.None_ by reflexivity.
  cbn [Py.truthy].
  replace (digest_step options_sha256 (Py.Str "12345678"))
    with (@inr Py.exn _ (Py.Str "ef797c8118f02dfb649607dd5d3f8c7623048c9c063d532cc95c5ed7a898a64f"))
    by (vm_compute; reflexivity).
  eexists _, _, _, _. split; [reflexivity |].
  cbn [challenges log_call set_challenges set_cursor challenge stored_row reply_dict].
  split; [reflexivity |].
  split; [vm_compute; reflexivity |].
  split; [reflexivity |].
  split; [apply lookup_singleton_eq |].
  split; [rewrite !lookup_insert_ne by discriminate; apply lookup_insert_eq |].
  split; [rewrite lookup_insert_ne by discriminate; apply lookup_insert_eq |].
  apply lookup_insert_eq.
Qed.

(** *** Random suffixes *)

Lemma random_str_length (alphabet : string) (from n : nat) :
  String.length (random_str alphabet from n) = n.
Proof.
  revert from. induction n as [| n IH]; intros from; [reflexivity |].
  cbn [random_str String.length]. rewrite IH. reflexivity.
Qed.

Lemma choice_alphanum (r : nat) : Py.is_alnum (choice alphanum r) = true.
Proof.
  unfold choice. change (String.length alphanum) with 62%nat.
  assert (Hlt : (r mod 62 < 62)%nat) by (apply Nat.mod_upper_bound; discriminate).
  assert (Hall : forallb (fun i => Py.is_alnum
                   match String.get i alphanum with Some c => c | None => "0"%char end)
                   (seq 0 62) = true) by (vm_compute; reflexivity).
  rewrite forallb_forall in Hall. apply Hall. apply in_seq. lia.
Qed.

Lemma random_str_alphanum (from n : nat) :
  forallb Py.is_alnum (list_ascii_of_string (random_str alphanum from n)) = true.
Proof.
  revert from. induction n as [| n IH]; intros from; [reflexivity |].
  cbn [random_str list_ascii_of_string forallb].
  rewrite choice_alphanum, IH. reflexivity.
Qed.

(** C6: with a challenge of "ABCDEFGH", addrandomchallenge 4 and no hashing
    option, create_challenge stores "ABCDEFGH" followed by four characters
    drawn from the letters and digits, and returns that same string as
    original_challenge. *)
Theorem create_challenge_random_suffix (tid : Py.val) (w : World) (v : Z) :
  resolve_validity w = (w, inr v) ->
  exists w' reply row attributes suffix,
    create_challenge tid (Some options_random) w = (w', inr reply)
    /\ suffix = random_str alphanum (cursor w) 4
    /\ String.length suffix = 4%nat
    /\ forallb Py.is_alnum (list_ascii_of_string suffix) = true
    /\ challenges w' = (challenges w ++ [row])%list
    /\ challenge row = Py.Str ("ABCDEFGH" ++ suffix)
    /\ reply_dict reply !! "attributes" = Some attributes
    /\ attributes !! "original_challenge" = Some (Py.Str ("ABCDEFGH" ++ suffix)).
Proof.
  intros Hv. apply resolve_validity_ok in Hv.
  rewrite create_challenge_run, Hv, choose_challenge_run.
  cbn [default from_option id].
  replace (Py.get options_random "challenge") with (Py.Str "ABCDEFGH") by reflexivity.
  change (negb (Py.truthy (Py.Str "ABCDEFGH"))) with false. cbv beta iota.
  unfold augment.
  replace (Py.get options_random "addrandomchallenge") with (Py.Int 4) by reflexivity.
  change (Py.truthy (Py.Int 4)) with true. cbn [Py.int Py.add_str].
  change (Z.to_nat 4) with 4%nat.
  set (suffix := random_str alphanum (cursor w) 4).
  replace (digest_step options_random (Py.Str ("ABCDEFGH" ++ suffix)))
    with (@inr Py.exn _ (Py.Str ("ABCDEFGH" ++ suffix))) by reflexivity.
  eexists _, _, _, _, suffix. split; [reflexivity |].
  cbn [challenges log_call set_challenges set_cursor challenge stored_row reply_dict].
  split; [reflexivity |].
  split; [apply random_str_length |].
  split; [apply random_str_alphanum |].
  split; [reflexivity |].
  split; [reflexivity |].
  split; [apply lookup_singleton_eq |].
  rewrite !lookup_insert_ne by discriminate. apply lookup_insert_eq.
Qed.

(** *** Generated challenges *)

Lemma choose_challenge_generated (options : Py.dict) (ocrasuite : Py.val)
    (attributes : gmap string Py.val) (w : World) :
  Py.truthy (Py.get options "challenge") = false ->
  choose_challenge options ocrasuite attributes w =
    match OCRASuite ocrasuite with
    | inl e => (w, inl e)
    | inr os =>
        (set_cursor (S (cursor w)) w,
         inr (Py.Str (OCRASuite_create_challenge os (urandom (cursor w))), attributes))
    end.
Proof. intros Hfalsy. rewrite choose_challenge_run, Hfalsy. reflexivity. Qed.

(** C10: an empty-string challenge is handled as no challenge at all.  The
    call behaves as the call without the "challenge" entry and as the call
    without options; it succeeds whenever the validity lookup and the suite
    descriptor are fine; and on success the stored value is the challenge
    the suite engine generated, unhashed and without suffix, and the
    attributes hold the "challenge" entry only. *)
Theorem create_challenge_empty_challenge (tid : Py.val) (options : Py.dict) (w : World) :
  options !! "challenge" = Some (Py.Str "") ->
  create_challenge tid (Some options) w
    = create_challenge tid (Some (delete "challenge" options)) w
  /\ create_challenge tid (Some options) w = create_challenge tid None w
  /\ (forall v os,
        resolve_validity w = (w, inr v) -> OCRASuite (suite_of w) = inr os ->
        exists w' reply, create_challenge tid (Some options) w = (w', inr reply))
  /\ (forall w' reply,
        create_challenge tid (Some options) w = (w', inr reply) ->
        exists os row attributes,
          OCRASuite (suite_of w) = inr os
          /\ challenges w' = (challenges w ++ [row])%list
          /\ challenge row = Py.Str (OCRASuite_create_challenge os (urandom (cursor w)))
          /\ reply_dict reply !! "attributes" = Some attributes
          /\ attributes = {["challenge" := challenge row]}
          /\ attributes !! "original_challenge" = None
          /\ attributes !! "qrcode" = None).
Proof.
  intros Hempty.
  assert (Hfalsy : Py.truthy (Py.get options "challenge") = false)
    by (unfold Py.get; rewrite Hempty; reflexivity).
  assert (Hdel : Py.truthy (Py.get (delete "challenge" options) "challenge") = false)
    by (unfold Py.get; rewrite lookup_delete_eq; reflexivity).
  assert (Hnone : Py.truthy (Py.get (∅ : Py.dict) "challenge") = false) by reflexivity.
  assert (Hrun : create_challenge tid (Some options) w =
            match validity_of w with
            | inl e => (w, inl e)
            | inr v =>
                match OCRASuite (suite_of w) with
                | inl e => (w, inl e)
                | inr os =>
                    let w2 := set_cursor (S (cursor w)) w in
                    let c := Py.Str (OCRASuite_create_challenge os (urandom (cursor w))) in
                    let row := stored_row w2 c v in
                    (log_call (Call_Challenge_save row)
                       (set_challenges (challenges w2 ++ [row]) (set_cursor (S (cursor w2)) w2)),
                     inr {| success := true;
                            message := "Please answer the challenge";
                            reply_transaction_id := transaction_id row;
                            reply_dict := {["attributes" := <["challenge" := c]> ∅]} |})
                end
            end).
  { rewrite create_challenge_run. cbn [default from_option id].
    rewrite (choose_challenge_generated _ _ _ _ Hfalsy).
    destruct (validity_of w); [reflexivity |].
    destruct (OCRASuite (suite_of w)); reflexivity. }
  split; [| split; [| split]].
  - rewrite !create_challenge_run. cbn [default from_option id].
    rewrite (choose_challenge_generated _ _ _ _ Hfalsy).
    rewrite (choose_challenge_generated _ _ _ _ Hdel). reflexivity.
  - rewrite !create_challenge_run. cbn [default from_option id].
    rewrite (choose_challenge_generated _ _ _ _ Hfalsy).
    rewrite (choose_challenge_generated _ _ _ _ Hnone). reflexivity.
  - intros v os Hv Hos. apply resolve_validity_ok in Hv.
    rewrite Hrun, Hv, Hos. eexists _, _. reflexivity.
  - intros w' reply. rewrite Hrun.
    destruct (validity_of w) as [e | v]; [discriminate |].
    destruct (OCRASuite (suite_of w)) as [e | os]; [discriminate |].
    intros H. inversion H; subst. eexists os, _, _.
    cbn [challenges log_call set_challenges set_cursor challenge stored_row reply_dict].
    split; [reflexivity |]. split; [reflexivity |]. split; [reflexivity |].
    split; [apply lookup_singleton_eq |].
    split; [apply insert_empty |].
    split; (rewrite lookup_insert_ne by discriminate; apply lookup_empty).
Qed.

(** *** Transaction ids *)

(** The [transactionid] argument does not enter the computation. *)
Lemma create_challenge_transactionid_unused
    (tid tid' : Py.val) (options : option Py.dict) (w : World) :
  create_challenge tid options w = create_challenge tid' options w.
Proof. reflexivity. Qed.

(** The id returned is always one the challenge table made. *)
Lemma create_challenge_transaction_id
    (tid : Py.val) (options : option Py.dict) (w w' : World) (reply : Reply) :
  create_challenge tid options w = (w', inr reply) ->
  exists n row,
    challenges w' = (challenges w ++ [row])%list
    /\ transaction_id row = Py.Str (create_transaction_id (urandom n))
    /\ reply_transaction_id reply = transaction_id row.
Proof.
  intros Hrun.
  destruct (create_challenge_ok _ _ _ _ _ Hrun)
    as (v & w2 & c & attributes & _ & _ & Hch & _ & _ & Hreply).
  exists (cursor w2), (stored_row w2 c v). rewrite Hreply. repeat split. exact Hch.
Qed.

End Properties.

(** * The methods on explicit inputs *)

Section Instances.

#[local] Existing Instance Reference.platform.

Import Reference.

(** C1, counterexample: the parameters name the user alice and carry the
    descriptor "bogus".  The suite engine rejects the descriptor and update
    raises, but add_user has already run: the token, unbound before, is
    bound to alice and to her realm afterwards. *)
Lemma update_binds_user_before_validation :
  OCRASuite (getParam param_bogus_user "ocrasuite" (Py.Str OCRA_DEFAULT_SUITE))
    = inl (Py.Exception_ "The OCRAsuite consists of three fields")
  /\ snd (update param_bogus_user world0)
     = inl (Py.Exception_ "The OCRAsuite consists of three fields")
  /\ user (self world0) = None
  /\ user (self (fst (update param_bogus_user world0))) = Some alice
  /\ realms (self world0) = []
  /\ realms (self (fst (update param_bogus_user world0))) = ["realm1"]
  /\ journal (fst (update param_bogus_user world0)) = [Call_add_user alice]
  /\ fst (update param_bogus_user world0) <> world0.
Proof.
  repeat split; try (vm_compute; reflexivity).
  intros H. apply (f_equal (fun w => user (self w))) in H.
  vm_compute in H. discriminate H.
Qed.

(** The amended C1 at the parameters of the counterexample. *)
Lemma update_rejected_suite_witness :
  OCRASuite (getParam param_bogus_user "ocrasuite" (Py.Str OCRA_DEFAULT_SUITE))
    = inl (Py.Exception_ "The OCRAsuite consists of three fields")
  /\ exists w' e',
       update param_bogus_user world0 = (w', inl e')
       /\ journal w' = [Call_add_user alice]
       /\ tokeninfo (self w') = ∅.
Proof.
  assert (Hbad : OCRASuite (getParam param_bogus_user "ocrasuite" (Py.Str OCRA_DEFAULT_SUITE))
                 = inl (Py.Exception_ "The OCRAsuite consists of three fields"))
    by reflexivity.
  split; [exact Hbad |].
  destruct (update_rejected_suite param_bogus_user world0 _ Hbad)
    as (w' & e' & Hrun & Hj & Hti & _).
  exists w', e'. split; [exact Hrun |]. split; [exact Hj | exact Hti].
Defined.

(** C2, counterexample: with the hashing option "sha256" and no challenge
    in the options, the value stored is the generated challenge itself and
    not its SHA-256 digest; and with the option spelled "SHA256", which is
    not the string "sha256", the digest taken is SHA-256 and not SHA-1. *)
Lemma create_challenge_hashing_counterexample :
  Py.truthy (Py.get options_hash_only "hashchallenge") = true
  /\ map challenge (challenges (fst (create_challenge Py.None_ (Some options_hash_only) world0)))
     = [Py.Str "0000000000000000000000000000000000000005"]
  /\ hexdigest hashlib.sha256 (Py.Str "0000000000000000000000000000000000000005")
     = inr (Py.Str "1e9aff0b1e52396434f4fe5e2c4a0bbb2903e03f9af583bef8ea8096916fb65d")
  /\ Py.Str "0000000000000000000000000000000000000005"
     <> Py.Str "1e9aff0b1e52396434f4fe5e2c4a0bbb2903e03f9af583bef8ea8096916fb65d"
  /\ Py.get options_upper "hashchallenge" = Py.Str "SHA256"
  /\ map challenge (challenges (fst (create_challenge Py.None_ (Some options_upper) world0)))
     = [Py.Str "ef797c8118f02dfb649607dd5d3f8c7623048c9c063d532cc95c5ed7a898a64f"]
  /\ hexdigest hashlib.sha1 (Py.Str "12345678")
     = inr (Py.Str "7c222fb2927d828af22f592134e8932480637c0d")
  /\ Py.Str "ef797c8118f02dfb649607dd5d3f8c7623048c9c063d532cc95c5ed7a898a64f"
     <> Py.Str "7c222fb2927d828af22f592134e8932480637c0d".
Proof.
  repeat split; try (vm_compute; reflexivity); intros H; discriminate H.
Qed.

(** The amended C2 at a caller-supplied challenge hashed with SHA-256. *)
Lemma create_challenge_persisted_value_witness :
  exists w' reply,
    create_challenge Py.None_ (Some options_sha256) world0 = (w', inr reply)
    /\ exists row attributes,
         challenges w' = [row]
         /\ reply_dict reply !! "attributes" = Some attributes
         /\ hexdigest hashlib.sha256 (Py.get attributes "original_challenge")
            = inr (challenge row).
Proof.
  eexists _, _. split; [vm_compute; reflexivity |].
  match goal with
  | |- exists row attributes, challenges ?w' = _ /\ reply_dict ?reply !! _ = _ /\ _ =>
      destruct (create_challenge_persisted_value Py.None_ (Some options_sha256) world0 w' reply)
        as (row & attributes & Hch & Hattr & Hval); [vm_compute; reflexivity |]
  end.
  exists row, attributes. split; [exact Hch |]. split; [exact Hattr |].
  destruct Hval as (h & Hh & Hsel).
  assert (Heq : h = "sha256") by (vm_compute in Hh; inversion Hh; reflexivity).
  rewrite Heq in Hsel. exact Hsel.
Defined.

(** C3 on the fresh token, whose validity window is the default 120. *)
Lemma create_challenge_sha256_witness :
  resolve_validity world0 = (world0, inr 120)
  /\ exists w' reply row,
       create_challenge (Py.Str "0123456789") (Some options_sha256) world0 = (w', inr reply)
       /\ challenge row
          = Py.Str "ef797c8118f02dfb649607dd5d3f8c7623048c9c063d532cc95c5ed7a898a64f"
       /\ challenges w' = [row].
Proof.
  assert (Hv : resolve_validity world0 = (world0, inr 120)) by reflexivity.
  split; [exact Hv |].
  destruct (create_challenge_sha256 (Py.Str "0123456789") world0 120 Hv)
    as (w' & reply & row & attributes & Hrun & Hch & _ & Hrow & _).
  exists w', reply, row. split; [exact Hrun |]. split; [exact Hrow | exact Hch].
Defined.

(** C4: a call with the transaction id "0123456789" stores and returns
    the id the challenge table made; the id supplied appears nowhere. *)
Theorem create_challenge_drops_transactionid :
  exists w' reply,
    create_challenge (Py.Str "0123456789") (Some options_plain) world0 = (w', inr reply)
    /\ map transaction_id (challenges w') = [Py.Str "000000000000000f4248"]
    /\ reply_transaction_id reply = Py.Str "000000000000000f4248"
    /\ reply_transaction_id reply <> Py.Str "0123456789"
    /\ create_challenge (Py.Str "0123456789") (Some options_plain) world0
       = create_challenge Py.None_ (Some options_plain) world0.
Proof.
  eexists _, _. split; [vm_compute; reflexivity |].
  cbn [reply_transaction_id challenges].
  repeat split; try (vm_compute; reflexivity).
  intros H. vm_compute in H. discriminate H.
Qed.

(** C5, counterexample: the enrolled token, locked.  verify_response
    accepts the response to the challenge, check_otp raises. *)
Lemma check_otp_locked_differs :
  options_plain !! "challenge" = Some (Py.Str "12345678")
  /\ locked (self Samples.world_locked) = true
  /\ snd (check_otp (Py.Str "57272cf5") (Py.Int 3) (Py.Int 10) (Some options_plain)
            Samples.world_locked)
     = inl Py.TokenAdminError
  /\ snd (verify_response (Py.Str "57272cf5") (Py.Str "12345678") Samples.world_locked)
     = inr 1
  /\ check_otp (Py.Str "57272cf5") (Py.Int 3) (Py.Int 10) (Some options_plain)
       Samples.world_locked
     <> verify_response (Py.Str "57272cf5") (Py.Str "12345678") Samples.world_locked.
Proof.
  repeat split; try (vm_compute; reflexivity).
  intros H. apply (f_equal snd) in H. vm_compute in H. discriminate H.
Qed.

(** C5 on the enrolled token, not locked, with counter 3 and window 10:
    both sides accept the response. *)
Lemma check_otp_is_verify_response_witness :
  options_plain !! "challenge" = Some (Py.Str "12345678")
  /\ locked (self world_enrolled) = false
  /\ check_otp (Py.Str "57272cf5") (Py.Int 3) (Py.Int 10) (Some options_plain) world_enrolled
     = verify_response (Py.Str "57272cf5") (Py.Str "12345678") world_enrolled
  /\ snd (check_otp (Py.Str "57272cf5") (Py.Int 3) (Py.Int 10) (Some options_plain)
            world_enrolled)
     = inr 1.
Proof.
  assert (Hch : options_plain !! "challenge" = Some (Py.Str "12345678")) by reflexivity.
  assert (Hunlocked : locked (self world_enrolled) = false) by reflexivity.
  split; [exact Hch |]. split; [exact Hunlocked |].
  destruct (check_otp_is_verify_response (Py.Str "57272cf5") (Py.Int 3) (Py.Int 10)
              Py.None_ Py.None_ _ _ world_enrolled Hch) as (_ & _ & Heq & _).
  split; [exact (Heq Hunlocked) |].
  rewrite (Heq Hunlocked). vm_compute. reflexivity.
Defined.

(** C6 on the fresh token. *)
Lemma create_challenge_random_suffix_witness :
  resolve_validity world0 = (world0, inr 120)
  /\ exists w' reply row,
       create_challenge Py.None_ (Some options_random) world0 = (w', inr reply)
       /\ challenges w' = [row]
       /\ exists suffix,
            challenge row = Py.Str ("ABCDEFGH" ++ suffix) /\ String.length suffix = 4%nat.
Proof.
  assert (Hv : resolve_validity world0 = (world0, inr 120)) by reflexivity.
  split; [exact Hv |].
  destruct (create_challenge_random_suffix Py.None_ world0 120 Hv)
    as (w' & reply & row & attributes & suffix & Hrun & _ & Hlen & _ & Hch & Hrow & _).
  exists w', reply, row. split; [exact Hrun |]. split; [exact Hch |].
  exists suffix. split; [exact Hrow | exact Hlen].
Defined.

(** C7 with both validity times configured: the type-specific 60 wins
    over the global 300. *)
Lemma create_challenge_validity_witness :
  tokentype (self world_configured) = "ocra"
  /\ exists w' reply,
       create_challenge Py.None_ (Some options_plain) world_configured = (w', inr reply)
       /\ exists row, challenges w' = [row] /\ validitytime row = 60.
Proof.
  split; [reflexivity |].
  eexists _, _. split; [vm_compute; reflexivity |].
  match goal with
  | |- exists row, challenges ?w' = _ /\ _ =>
      destruct (create_challenge_validity Py.None_ (Some options_plain) world_configured w'
                  {| success := true; message := "Please answer the challenge";
                     reply_transaction_id := Py.Str "000000000000000f4248";
                     reply_dict := {["attributes" :=
                       <["challenge" := Py.Str "12345678"]>
                         (<["qrcode" := Py.Str "data:image/png;base64,12345678"]>
                            (<["original_challenge" := Py.Str "12345678"]> ∅))]} |})
        as (row & Hch & Hval); [reflexivity | vm_compute; reflexivity |]
  end.
  exists row. split; [exact Hch |].
  assert (H60 : Py.int (ordered_validity_lookup (config world_configured)) = inr 60)
    by reflexivity.
  rewrite H60 in Hval. inversion Hval. reflexivity.
Defined.

(** C8 at a row whose fourth column is padded with blanks, a tabulator,
    a no-break space and an em space, with a base importer that sets an OTP
    length. *)
Lemma get_import_csv_ocrasuite_witness :
  TokenClass_get_import_csv Samples.unicode_row
    = inr (<["serial" := Py.Str "user1"]>
           (<["otpkey" := Py.Str "pw"]>
            (<["type" := Py.Str "pin"]> (<["otplen" := Py.Int 6]> ∅))))
  /\ (4 <= length Samples.unicode_row)%nat
  /\ exists params,
       get_import_csv Samples.unicode_row = inr params
       /\ params !! "ocrasuite" = Some (Py.Str "OCRA-1:HOTP-SHA1-6:QN08")
       /\ params !! "otplen" = None.
Proof.
  assert (Hbase : TokenClass_get_import_csv Samples.unicode_row
            = inr (<["serial" := Py.Str "user1"]>
                   (<["otpkey" := Py.Str "pw"]>
                    (<["type" := Py.Str "pin"]> (<["otplen" := Py.Int 6]> ∅)))))
    by reflexivity.
  assert (Hlen : (4 <= length Samples.unicode_row)%nat)
    by (cbn [length Samples.unicode_row]; lia).
  split; [exact Hbase |]. split; [exact Hlen |].
  destruct (get_import_csv_ocrasuite Samples.unicode_row _ Hbase Hlen)
    as (params & pre & s & post & Hrun & Hsuite & Hs & _ & _ & _ & _ & _ & Hotp).
  assert (Hstrip : Py.strip (nth 3 Samples.unicode_row "") = "OCRA-1:HOTP-SHA1-6:QN08")
    by (vm_compute; reflexivity).
  rewrite Hstrip in Hs. subst s.
  exists params. split; [exact Hrun |]. split; [exact Hsuite | exact Hotp].
Defined.

(** The row of the specification. *)
Example import_row_of_the_specification :
  exists params,
    get_import_csv csv_row = inr params
    /\ params !! "ocrasuite" = Some (Py.Str "OCRA-1:HOTP-SHA1-6:QN08")
    /\ params !! "otplen" = None.
Proof. eexists. split; [reflexivity |]. split; vm_compute; reflexivity. Qed.

(** White space beyond the ASCII range is stripped, and skipped by the
    integer conversion; the ASCII separators FS to US are stripped but not
    skipped by the conversion. *)
Example strip_unicode :
  Py.strip (Samples.nbsp ++ " x y" ++ String (ascii_of_nat 28) Samples.emsp) = "x y"
  /\ Py.int (Py.Str (Samples.nbsp ++ "120" ++ Samples.emsp)) = inr 120
  /\ Py.int (Py.Str (String (ascii_of_nat 28) "120")) = inl Py.ValueError.
Proof. repeat split; vm_compute; reflexivity. Qed.

(** C9, counterexample: on a locked token the options without a challenge
    are never subscripted; the exception is the decorator's TokenAdminError
    and not the missing-key error. *)
Lemma check_otp_missing_challenge_locked :
  Reference.options_no_challenge !! "challenge" = None
  /\ locked (self Samples.world_locked) = true
  /\ check_otp (Py.Str "57272cf5") Py.None_ Py.None_ (Some options_no_challenge)
       Samples.world_locked
     = (Samples.world_locked, inl Py.TokenAdminError)
  /\ Py.TokenAdminError <> Py.KeyError "challenge".
Proof. repeat split; try reflexivity. discriminate. Qed.

(** C9 with options that carry a transaction id but no challenge. *)
Lemma check_otp_missing_challenge_witness :
  options_no_challenge !! "challenge" = None
  /\ check_otp (Py.Str "57272cf5") Py.None_ Py.None_ (Some options_no_challenge) world0
     = (world0, inl (Py.KeyError "challenge")).
Proof.
  assert (Hmiss : options_no_challenge !! "challenge" = None) by reflexivity.
  split; [exact Hmiss |].
  exact (proj1 (check_otp_missing_challenge (Py.Str "57272cf5") Py.None_ Py.None_
                  options_no_challenge world0 Hmiss)).
Defined.

(** C10 at the options of the claim. *)
Lemma create_challenge_empty_challenge_witness :
  options_empty_challenge !! "challenge" = Some (Py.Str "")
  /\ create_challenge Py.None_ (Some options_empty_challenge) world0
     = create_challenge Py.None_ None world0
  /\ exists w' reply,
       create_challenge Py.None_ (Some options_empty_challenge) world0 = (w', inr reply).
Proof.
  assert (Hempty : options_empty_challenge !! "challenge" = Some (Py.Str "")) by reflexivity.
  split; [exact Hempty |].
  destruct (create_challenge_empty_challenge Py.None_ options_empty_challenge world0 Hempty)
    as (_ & Hnone & Hok & _).
  split; [exact Hnone |].
  assert (Hv : resolve_validity world0 = (world0, inr 120)) by reflexivity.
  eapply (Hok 120 _ Hv). reflexivity.
Defined.

(** *** Further runs *)

(** A regular enrollment makes its calls in this order; the realm is
    assigned after the base-class update. *)
Example update_journal :
  snd (update param_alice world0) = inr tt
  /\ journal world_enrolled
     = [Call_add_user alice;
        Call_add_tokeninfo "ocrasuite" (Py.Str "OCRA-1:HOTP-SHA1-6:QN08");
        Call_TokenClass_update param_alice;
        Call_set_realms ["realm1"]]
  /\ tokeninfo (self world_enrolled) !! "ocrasuite" = Some (Py.Str "OCRA-1:HOTP-SHA1-6:QN08")
  /\ realms (self world_enrolled) = ["realm1"].
Proof. repeat split; vm_compute; reflexivity. Qed.

Example check_otp_match :
  snd (check_otp (Py.Str "57272cf5") Py.None_ Py.None_ (Some options_plain) world_enrolled)
  = inr 1.
Proof. vm_compute. reflexivity. Qed.

Example check_otp_mismatch :
  snd (check_otp (Py.Str "00000000") Py.None_ Py.None_ (Some options_plain) world_enrolled)
  = inr (-1).
Proof. vm_compute. reflexivity. Qed.

Example validity_default :
  map validitytime (challenges (fst (create_challenge Py.None_ None world_enrolled))) = [120].
Proof. vm_compute. reflexivity. Qed.

Example validity_configured :
  map validitytime (challenges (fst (create_challenge Py.None_ None world_configured))) = [60].
Proof. vm_compute. reflexivity. Qed.

End Instances.

(** * Further properties of the token class *)

Section MoreProperties.

Context `{P : Platform}.

(** ** What a call of create_challenge leaves behind *)

Lemma choose_challenge_cursor (options : Py.dict) (ocrasuite : Py.val)
    (attributes : gmap string Py.val) (w w2 : World) (r : Py.result (Py.val * gmap string Py.val)) :
  choose_challenge options ocrasuite attributes w = (w2, r) ->
  (cursor w <= cursor w2)%nat.
Proof.
  rewrite choose_challenge_run.
  destruct (negb (Py.truthy (Py.get options "challenge"))).
  - destruct (OCRASuite ocrasuite); intros H; inversion H; subst; cbn [cursor set_cursor]; lia.
  - unfold augment.
    destruct (Py.truthy (Py.get options "addrandomchallenge")).
    + destruct (Py.int (Py.get options "addrandomchallenge")) as [e | n].
      * intros H; inversion H; subst; lia.
      * destruct (Py.add_str _ _); intros H; inversion H; subst; cbn [cursor set_cursor]; lia.
    + intros H; inversion H; subst; lia.
Qed.

(** X1: a successful create_challenge appends exactly one row to the
    challenge table and journals exactly one save.  The row carries the
    token's serial and neither data nor session; the token object and the
    configuration are as before, and the random source has advanced. *)
Theorem create_challenge_stores_one_row
    (tid : Py.val) (options : option Py.dict) (w w' : World) (reply : Reply) :
  create_challenge tid options w = (w', inr reply) ->
  exists row,
    challenges w' = (challenges w ++ [row])%list
    /\ journal w' = (journal w ++ [Call_Challenge_save row])%list
    /\ ch_serial row = serial (self w)
    /\ data row = Py.None_
    /\ session row = Py.None_
    /\ self w' = self w
    /\ config w' = config w
    /\ (cursor w < cursor w')%nat.
Proof.
  rewrite create_challenge_run.
  destruct (validity_of w) as [e | v]; [discriminate |].
  destruct (choose_challenge (default ∅ options) (suite_of w) ∅ w)
    as [w2 [e | [c attributes]]] eqn:Hchoose; [discriminate |].
  destruct (choose_challenge_frame _ _ _ _ _ _ Hchoose) as (Hself & Hch & Hcfg & Hj).
  pose proof (choose_challenge_cursor _ _ _ _ _ _ Hchoose) as Hcur.
  intros H. inversion H; subst. exists (stored_row w2 c v).
  cbn [challenges journal self config cursor log_call set_challenges set_cursor
       stored_row ch_serial data session].
  rewrite Hch, Hj, Hself, Hcfg. repeat split. lia.
Qed.

(** X2: the reply of a successful create_challenge reports success with
    the fixed prompt, names the transaction id of the row just stored, and
    its only entry, "attributes", holds under "challenge" exactly the value
    stored in that row. *)
Theorem create_challenge_reply_matches_row
    (tid : Py.val) (options : option Py.dict) (w w' : World) (reply : Reply) :
  create_challenge tid options w = (w', inr reply) ->
  exists row attributes,
    last (challenges w') = Some row
    /\ success reply = true
    /\ message reply = "Please answer the challenge"
    /\ reply_transaction_id reply = transaction_id row
    /\ reply_dict reply = {["attributes" := attributes]}
    /\ attributes !! "challenge" = Some (challenge row).
Proof.
  intros Hrun.
  destruct (create_challenge_ok _ _ _ _ _ Hrun)
    as (v & w2 & c & attributes & _ & _ & Hch & _ & _ & Hreply).
  exists (stored_row w2 c v), (<["challenge" := c]> attributes).
  rewrite Hch, Hreply. split; [apply last_snoc |].
  repeat split. apply lookup_insert_eq.
Qed.

(** X3: when create_challenge raises, nothing was written: the challenge
    table, the journal, the token object and the configuration are as
    before, whatever the exception. *)
Theorem create_challenge_failure_stores_nothing
    (tid : Py.val) (options : option Py.dict) (w w' : World) (e : Py.exn) :
  create_challenge tid options w = (w', inl e) ->
  challenges w' = challenges w
  /\ journal w' = journal w
  /\ self w' = self w
  /\ config w' = config w.
Proof.
  rewrite create_challenge_run.
  destruct (validity_of w) as [e0 | v].
  - intros H. inversion H; subst. repeat split.
  - destruct (choose_challenge (default ∅ options) (suite_of w) ∅ w)
      as [w2 [e0 | [c attributes]]] eqn:Hchoose; [| discriminate].
    destruct (choose_challenge_frame _ _ _ _ _ _ Hchoose) as (Hself & Hch & Hcfg & Hj).
    intros H. inversion H; subst. repeat split; assumption.
Qed.

(** X4: the attributes of a successful create_challenge have one of two
    shapes.  With a caller-supplied challenge they hold the cleartext as
    original_challenge, the image rendered from that same cleartext as
    qrcode, and the stored value as challenge; with a generated challenge
    they hold the entry challenge and nothing else. *)
Theorem create_challenge_attributes
    (tid : Py.val) (options : option Py.dict) (w w' : World) (reply : Reply) :
  create_challenge tid options w = (w', inr reply) ->
  exists row,
    last (challenges w') = Some row
    /\ if Py.truthy (Py.get (default ∅ options) "challenge") then
         exists clear,
           reply_dict reply !! "attributes"
           = Some (<["challenge" := challenge row]>
                     (<["qrcode" := Py.Str (create_img clear)]>
                        (<["original_challenge" := clear]> ∅)))
       else
         reply_dict reply !! "attributes" = Some {["challenge" := challenge row]}.
Proof.
  intros Hrun.
  destruct (create_challenge_ok _ _ _ _ _ Hrun)
    as (v & w2 & c & attributes & _ & Hchoose & Hch & _ & _ & Hreply).
  exists (stored_row w2 c v). rewrite Hch, Hreply.
  split; [apply last_snoc |].
  cbn [reply_dict]. rewrite lookup_singleton_eq.
  rewrite choose_challenge_run in Hchoose.
  destruct (Py.truthy (Py.get (default ∅ options) "challenge")); cbn [negb] in Hchoose.
  - destruct (augment _ _ w) as [w1 [e | clear]]; [discriminate |].
    destruct (digest_step (default ∅ options) clear) as [e | c']; [discriminate |].
    inversion Hchoose; subst. exists clear. reflexivity.
  - destruct (OCRASuite (suite_of w)) as [e | os]; [discriminate |].
    inversion Hchoose; subst. cbn [challenge stored_row].
    rewrite insert_empty. reflexivity.
Qed.

(** ** The validity window *)

Lemma validity_of_lookup (w : World) (v : Z) :
  validity_of w = inr v ->
  Py.int (validity_lookup (tokentype (self w)) (config w)) = inr v.
Proof.
  unfold validity_of, validity_lookup, Py.get_default.
  fold (validity_key (tokentype (self w))).
  destruct (config w !! "DefaultChallengeValidityTime") as [y |];
    destruct (config w !! validity_key (tokentype (self w))) as [x |];
    cbn [default from_option id Py.int].
  - destruct (Py.int y) as [e | v0]; [discriminate | intros H; exact H].
  - destruct (Py.int y) as [e | v0]; [discriminate | intros H; exact H].
  - intros H; exact H.
  - intros H; exact H.
Qed.

(** X5: for a token of any type, the validity stored with the challenge
    is the integer value of the first of: the configuration entry named
    after the type with its first letter in upper case and the rest in lower
    case followed by "ChallengeValidityTime", the entry
    "DefaultChallengeValidityTime", 120. *)
Theorem create_challenge_validity_by_type
    (tid : Py.val) (options : option Py.dict) (w w' : World) (reply : Reply) :
  create_challenge tid options w = (w', inr reply) ->
  exists row,
    last (challenges w') = Some row
    /\ Py.int (validity_lookup (tokentype (self w)) (config w)) = inr (validitytime row).
Proof.
  intros Hrun.
  destruct (create_challenge_ok _ _ _ _ _ Hrun) as (v & w2 & c & attributes & Hv & _ & Hch & _).
  exists (stored_row w2 c v). rewrite Hch. split; [apply last_snoc |].
  apply validity_of_lookup. exact Hv.
Qed.

(** X6: the global default is converted before the type's own entry is
    looked at.  When "DefaultChallengeValidityTime" is set to something
    int() rejects, create_challenge raises that error and does nothing else,
    even if the type's own entry is a proper number. *)
Theorem create_challenge_bad_global_default
    (tid : Py.val) (options : option Py.dict) (w : World) (e : Py.exn) :
  Py.int (Py.get_default (config w) "DefaultChallengeValidityTime" (Py.Int 120)) = inl e ->
  create_challenge tid options w = (w, inl e).
Proof.
  intros Hbad. rewrite create_challenge_run. unfold validity_of. rewrite Hbad. reflexivity.
Qed.

(** X7: a token object built by __init__ looks up
    "OcraChallengeValidityTime", whatever type the database row had before:
    the validity stored by a successful create_challenge is the integer
    value of the first of that entry, "DefaultChallengeValidityTime", 120. *)
Theorem init_then_create_challenge_validity
    (db_token : Token) (tid : Py.val) (options : option Py.dict) (w w' : World) (reply : Reply) :
  self w = init db_token ->
  create_challenge tid options w = (w', inr reply) ->
  exists row,
    last (challenges w') = Some row
    /\ Py.int (ordered_validity_lookup (config w)) = inr (validitytime row).
Proof.
  intros Hinit Hrun.
  destruct (create_challenge_ok _ _ _ _ _ Hrun) as (v & w2 & c & attributes & Hv & _ & Hch & _).
  exists (stored_row w2 c v). rewrite Hch. split; [apply last_snoc |].
  apply validity_of_ordered; [| exact Hv].
  rewrite Hinit. apply init_tokentype.
Qed.

(** ** The stored descriptor *)

Lemma augment_with_info (ti : gmap string Py.val) (options : Py.dict) (ch : Py.val) (w : World) :
  augment options ch (with_info ti w)
  = (with_info ti (fst (augment options ch w)), snd (augment options ch w)).
Proof.
  unfold augment.
  destruct (Py.truthy (Py.get options "addrandomchallenge")); [| reflexivity].
  destruct (Py.int (Py.get options "addrandomchallenge")); reflexivity.
Qed.

(** X8: with a caller-supplied challenge the descriptor stored on the
    token is never looked at.  Replacing the token info by any other leaves
    the outcome and everything written the same; the replaced info is
    simply carried along. *)
Theorem create_challenge_supplied_ignores_suite
    (tid : Py.val) (options : Py.dict) (ti : gmap string Py.val) (w : World) :
  Py.truthy (Py.get options "challenge") = true ->
  create_challenge tid (Some options) (with_info ti w)
  = (with_info ti (fst (create_challenge tid (Some options) w)),
     snd (create_challenge tid (Some options) w)).
Proof.
  intros Hsupplied. rewrite !create_challenge_run.
  change (validity_of (with_info ti w)) with (validity_of w).
  destruct (validity_of w) as [e | v]; [reflexivity |].
  cbn [default from_option id]. rewrite !choose_challenge_run, Hsupplied. cbn [negb].
  rewrite augment_with_info.
  destruct (augment options (Py.get options "challenge") w) as [w1 [e | clear]];
    cbn [fst snd]; [reflexivity |].
  destruct (digest_step options clear) as [e | c]; reflexivity.
Qed.

(** X9: with no challenge in the options the descriptor parsed is the one
    stored on the token, or the default one when the token has none.  When
    the suite engine rejects it, create_challenge raises the engine's
    exception and leaves the world as it was. *)
Theorem create_challenge_generated_bad_suite
    (tid : Py.val) (options : option Py.dict) (w : World) (v : Z) (e : Py.exn) :
  Py.truthy (Py.get (default ∅ options) "challenge") = false ->
  resolve_validity w = (w, inr v) ->
  OCRASuite (Py.or_ (Py.get (tokeninfo (self w)) "ocrasuite") (Py.Str OCRA_DEFAULT_SUITE))
    = inl e ->
  create_challenge tid options w = (w, inl e).
Proof.
  intros Hfalsy Hv Hbad. apply resolve_validity_ok in Hv.
  rewrite create_challenge_run, Hv, (choose_challenge_generated _ _ _ _ Hfalsy).
  unfold suite_of. rewrite Hbad. reflexivity.
Qed.

(** ** The options of the caller-supplied branch *)

(** X10: for a supplied non-empty string challenge and a truthy
    addrandomchallenge that int() turns into k, the cleartext returned as
    original_challenge is the supplied challenge followed by max(k, 0)
    characters, all of them letters or digits. *)
Theorem create_challenge_suffix_length
    (tid : Py.val) (options : Py.dict) (s : string) (k : Z) (w w' : World) (reply : Reply) :
  options !! "challenge" = Some (Py.Str s) ->
  s <> "" ->
  Py.truthy (Py.get options "addrandomchallenge") = true ->
  Py.int (Py.get options "addrandomchallenge") = inr k ->
  create_challenge tid (Some options) w = (w', inr reply) ->
  exists suffix attributes,
    reply_dict reply !! "attributes" = Some attributes
    /\ attributes !! "original_challenge" = Some (Py.Str (s ++ suffix))
    /\ String.length suffix = Z.to_nat k
    /\ forallb Py.is_alnum (list_ascii_of_string suffix) = true.
Proof.
  intros Hs Hne Hrandom Hk Hrun.
  destruct (create_challenge_ok _ _ _ _ _ Hrun)
    as (v & w2 & c & attributes & _ & Hchoose & _ & _ & _ & Hreply).
  cbn [default from_option id] in Hchoose.
  rewrite choose_challenge_run in Hchoose.
  assert (Hget : Py.get options "challenge" = Py.Str s) by (unfold Py.get; rewrite Hs; reflexivity).
  assert (Htruthy : Py.truthy (Py.Str s) = true).
  { cbn [Py.truthy]. apply negb_true_iff. apply String.eqb_neq. exact Hne. }
  rewrite Hget, Htruthy in Hchoose. cbn [negb] in Hchoose.
  unfold augment in Hchoose. rewrite Hrandom, Hk in Hchoose. cbn [Py.add_str] in Hchoose.
  set (suffix := random_str alphanum (cursor w) (Z.to_nat k)) in Hchoose.
  destruct (digest_step options (Py.Str (s ++ suffix))) as [e | c']; [discriminate |].
  inversion Hchoose; subst.
  exists suffix, (<["challenge" := c]>
                   (<["qrcode" := Py.Str (create_img (Py.Str (s ++ suffix)))]>
                      (<["original_challenge" := Py.Str (s ++ suffix)]> ∅))).
  split; [apply lookup_singleton_eq |].
  split; [rewrite !lookup_insert_ne by discriminate; apply lookup_insert_eq |].
  split; [apply random_str_length | apply random_str_alphanum].
Qed.

(** X11: a truthy addrandomchallenge that int() rejects makes
    create_challenge raise that error before anything is drawn or written:
    the world is left as it was. *)
Theorem create_challenge_bad_suffix_length
    (tid : Py.val) (options : Py.dict) (w : World) (v : Z) (e : Py.exn) :
  Py.truthy (Py.get options "challenge") = true ->
  Py.truthy (Py.get options "addrandomchallenge") = true ->
  Py.int (Py.get options "addrandomchallenge") = inl e ->
  resolve_validity w = (w, inr v) ->
  create_challenge tid (Some options) w = (w, inl e).
Proof.
  intros Hsupplied Hrandom Hbad Hv. apply resolve_validity_ok in Hv.
  rewrite create_challenge_run, Hv. cbn [default from_option id].
  rewrite choose_challenge_run, Hsupplied. cbn [negb].
  unfold augment. rewrite Hrandom, Hbad. reflexivity.
Qed.

Lemma digest_step_not_a_string (options : Py.dict) (hv clear : Py.val) :
  options !! "hashchallenge" = Some hv ->
  (forall s, hv <> Py.Str s) ->
  digest_step options clear = inl Py.AttributeError.
Proof.
  intros Hhv Hnot. unfold digest_step, Py.get_default. rewrite Hhv.
  cbn [default from_option id].
  destruct hv as [| b | z | s]; try reflexivity.
  exfalso. apply (Hnot s). reflexivity.
Qed.

(** X12: the default of the hashing option applies only when the key is
    absent.  With a supplied challenge, a hashchallenge entry that is
    present but is not a string (None, a boolean, a number) never lets
    create_challenge succeed; without a random suffix the exception is
    AttributeError and the world is left as it was. *)
Theorem create_challenge_hash_option_not_a_string
    (tid : Py.val) (options : Py.dict) (hv : Py.val) (w : World) :
  Py.truthy (Py.get options "challenge") = true ->
  options !! "hashchallenge" = Some hv ->
  (forall s, hv <> Py.Str s) ->
  (forall w' reply, create_challenge tid (Some options) w <> (w', inr reply))
  /\ (forall v,
        Py.truthy (Py.get options "addrandomchallenge") = false ->
        resolve_validity w = (w, inr v) ->
        create_challenge tid (Some options) w = (w, inl Py.AttributeError)).
Proof.
  intros Hsupplied Hhv Hnot. split.
  - intros w' reply Hrun.
    destruct (create_challenge_ok _ _ _ _ _ Hrun)
      as (v & w2 & c & attributes & _ & Hchoose & _).
    cbn [default from_option id] in Hchoose.
    rewrite choose_challenge_run, Hsupplied in Hchoose. cbn [negb] in Hchoose.
    destruct (augment _ _ w) as [w1 [e | clear]]; [discriminate |].
    rewrite (digest_step_not_a_string _ _ _ Hhv Hnot) in Hchoose. discriminate.
  - intros v Hplain Hv. apply resolve_validity_ok in Hv.
    rewrite create_challenge_run, Hv. cbn [default from_option id].
    rewrite choose_challenge_run, Hsupplied. cbn [negb].
    unfold augment. rewrite Hplain.
    rewrite (digest_step_not_a_string _ _ _ Hhv Hnot). reflexivity.
Qed.

(** ** Digests *)

Lemma fold_left_keeps_length {A B} (f : list A -> B -> list A) (l : list B) (st : list A) :
  (forall s b, length (f s b) = length s) ->
  length (fold_left f l st) = length st.
Proof.
  intros Hf. revert st. induction l as [| b l IH]; intros st; [reflexivity |].
  cbn [fold_left]. rewrite IH. apply Hf.
Qed.

Lemma sha2_round_length (p : hashlib.sha2_params) (st : list Z) (kw : Z * Z) :
  length (hashlib.sha2_round p st kw) = length st.
Proof.
  destruct st as [| a [| b [| c [| d [| e [| f [| g [| h [| i st]]]]]]]]]; reflexivity.
Qed.

Lemma sha1_round_length (st : list Z) (tw : nat * Z) :
  length (hashlib.sha1_round st tw) = length st.
Proof.
  destruct st as [| a [| b [| c [| d [| e [| f st]]]]]]; try reflexivity.
  unfold hashlib.sha1_round. destruct (hashlib.sha1_f (fst tw) b c d). reflexivity.
Qed.

Lemma add_words_length (w : Z) (xs ys : list Z) :
  length ys = length xs -> length (hashlib.add_words w xs ys) = length xs.
Proof.
  intros H. unfold hashlib.add_words. rewrite length_zip_with. lia.
Qed.

Lemma sha2_compress_length (p : hashlib.sha2_params) (h blk : list Z) :
  length (hashlib.sha2_compress p h blk) = length h.
Proof.
  unfold hashlib.sha2_compress. apply add_words_length.
  apply fold_left_keeps_length. intros s b. apply sha2_round_length.
Qed.

Lemma sha1_compress_length (h blk : list Z) :
  length (hashlib.sha1_compress h blk) = length h.
Proof.
  unfold hashlib.sha1_compress. apply add_words_length.
  apply fold_left_keeps_length. intros s b. apply sha1_round_length.
Qed.

Lemma be_bytes_length (n : nat) (v : Z) : length (hashlib.be_bytes n v) = n.
Proof.
  revert v. induction n as [| n IH]; intros v; [reflexivity |].
  cbn [hashlib.be_bytes]. rewrite length_app, IH. cbn [length]. lia.
Qed.

Lemma be_bytes_range (n : nat) (v : Z) :
  Forall (fun b => 0 <= b < 256) (hashlib.be_bytes n v).
Proof.
  revert v. induction n as [| n IH]; intros v; [constructor |].
  cbn [hashlib.be_bytes]. apply Forall_app. split; [apply IH |].
  constructor; [| constructor]. apply Z.mod_pos_bound. lia.
Qed.

Lemma words_to_bytes_length (n : nat) (h : list Z) :
  length (concat (map (hashlib.be_bytes n) h)) = (n * length h)%nat.
Proof.
  induction h as [| x h IH]; [cbn; lia |].
  cbn [map concat length]. rewrite length_app, be_bytes_length, IH. lia.
Qed.

Lemma words_to_bytes_range (n : nat) (h : list Z) :
  Forall (fun b => 0 <= b < 256) (concat (map (hashlib.be_bytes n) h)).
Proof.
  induction h as [| x h IH]; [constructor |].
  cbn [map concat]. apply Forall_app. split; [apply be_bytes_range | exact IH].
Qed.

Lemma sha1_length (msg : hashlib.bytes) : length (hashlib.sha1 msg) = 20%nat.
Proof.
  unfold hashlib.sha1. rewrite words_to_bytes_length.
  rewrite fold_left_keeps_length by (intros s b; apply sha1_compress_length).
  reflexivity.
Qed.

Lemma sha256_length (msg : hashlib.bytes) : length (hashlib.sha256 msg) = 32%nat.
Proof.
  unfold hashlib.sha256, hashlib.sha2. rewrite words_to_bytes_length.
  rewrite fold_left_keeps_length by (intros s b; apply sha2_compress_length).
  reflexivity.
Qed.

Lemma sha512_length (msg : hashlib.bytes) : length (hashlib.sha512 msg) = 64%nat.
Proof.
  unfold hashlib.sha512, hashlib.sha2. rewrite words_to_bytes_length.
  rewrite fold_left_keeps_length by (intros s b; apply sha2_compress_length).
  reflexivity.
Qed.

Lemma sha_range (msg : hashlib.bytes) :
  Forall (fun b => 0 <= b < 256) (hashlib.sha1 msg)
  /\ Forall (fun b => 0 <= b < 256) (hashlib.sha256 msg)
  /\ Forall (fun b => 0 <= b < 256) (hashlib.sha512 msg).
Proof. repeat split; apply words_to_bytes_range. Qed.

Lemma hexlify_length (bs : hashlib.bytes) :
  String.length (hexlify_and_unicode bs) = (2 * length bs)%nat.
Proof.
  induction bs as [| b bs IH]; [reflexivity |].
  cbn [hexlify_and_unicode String.length length]. rewrite IH. lia.
Qed.

Lemma hex_digit_lower_hex (n : Z) : 0 <= n < 16 -> is_lower_hex (hex_digit n) = true.
Proof.
  intros Hn.
  assert (Hall : forallb (fun i => is_lower_hex (hex_digit (Z.of_nat i))) (seq 0 16) = true)
    by (vm_compute; reflexivity).
  rewrite forallb_forall in Hall.
  replace n with (Z.of_nat (Z.to_nat n)) by lia.
  apply Hall. apply in_seq. lia.
Qed.

Lemma hexlify_lower_hex (bs : hashlib.bytes) :
  Forall (fun b => 0 <= b < 256) bs ->
  forallb is_lower_hex (list_ascii_of_string (hexlify_and_unicode bs)) = true.
Proof.
  induction 1 as [| b bs Hb _ IH]; [reflexivity |].
  cbn [hexlify_and_unicode list_ascii_of_string forallb].
  rewrite !hex_digit_lower_hex, IH; [reflexivity | |].
  - apply Z.mod_pos_bound. lia.
  - split; [apply Z.div_pos; lia | apply Z.div_lt_upper_bound; lia].
Qed.

(** X13: when a challenge is supplied and the hashing option is a
    non-empty string, the value stored is a string of lower-case
    hexadecimal digits of fixed length, whatever the length of the
    cleartext: 64 digits for "sha256", 128 for "sha512" and 40 for any
    other value (the option being compared in lower case). *)
Theorem create_challenge_hashed_length
    (tid : Py.val) (options : Py.dict) (h : string) (w w' : World) (reply : Reply) :
  Py.truthy (Py.get options "challenge") = true ->
  Py.lower_val (Py.get_default options "hashchallenge" (Py.Str "")) = inr h ->
  h <> "" ->
  create_challenge tid (Some options) w = (w', inr reply) ->
  exists row s,
    last (challenges w') = Some row
    /\ challenge row = Py.Str s
    /\ String.length s = digest_hex_length h
    /\ forallb is_lower_hex (list_ascii_of_string s) = true.
Proof.
  intros Hsupplied Hh Hne Hrun.
  destruct (create_challenge_ok _ _ _ _ _ Hrun)
    as (v & w2 & c & attributes & _ & Hchoose & Hch & _).
  cbn [default from_option id] in Hchoose.
  rewrite choose_challenge_run, Hsupplied in Hchoose. cbn [negb] in Hchoose.
  destruct (augment _ _ w) as [w1 [e | clear]]; [discriminate |].
  destruct (digest_step options clear) as [e | c'] eqn:Hdigest; [discriminate |].
  inversion Hchoose; subst.
  destruct (digest_step_selected _ _ _ Hdigest) as (h' & Hh' & Hsel).
  rewrite Hh in Hh'. inversion Hh'; subst h'.
  assert (Hhex : exists f s0,
            hexdigest f clear = inr c
            /\ clear = Py.Str s0
            /\ (2 * length (f (to_bytes s0)))%nat = digest_hex_length h
            /\ Forall (fun b => 0 <= b < 256) (f (to_bytes s0))).
  { unfold selected_digest, digest_hex_length in *.
    assert (Hclear : forall f, hexdigest f clear = inr c -> exists s0, clear = Py.Str s0).
    { intros f Hf. destruct clear as [| b | z | s0]; try discriminate. exists s0. reflexivity. }
    destruct (String.eqb h "sha256").
    - destruct (Hclear _ Hsel) as (s0 & Hs0). exists hashlib.sha256, s0.
      repeat split; try assumption; [rewrite sha256_length; reflexivity | apply sha_range].
    - destruct (String.eqb h "sha512").
      + destruct (Hclear _ Hsel) as (s0 & Hs0). exists hashlib.sha512, s0.
        repeat split; try assumption; [rewrite sha512_length; reflexivity | apply sha_range].
      + destruct (String.eqb h "") eqn:Hempty.
        * apply String.eqb_eq in Hempty. contradiction.
        * destruct (Hclear _ Hsel) as (s0 & Hs0). exists hashlib.sha1, s0.
          repeat split; try assumption; [rewrite sha1_length; reflexivity | apply sha_range]. }
  destruct Hhex as (f & s0 & Hf & Hs0 & Hlen & Hrange). subst clear.
  cbn [hexdigest] in Hf. inversion Hf; subst c.
  exists (stored_row w2 (Py.Str (hexlify_and_unicode (f (to_bytes s0)))) v),
         (hexlify_and_unicode (f (to_bytes s0))).
  rewrite Hch. split; [apply last_snoc |]. split; [reflexivity |].
  split; [rewrite hexlify_length; exact Hlen | apply hexlify_lower_hex; exact Hrange].
Qed.

(** ** Enrollment, call by call *)

(** [update] stage by stage. *)
Lemma update_run (param : Py.dict) (w : World) :
  update param w =
    let ocrasuite := getParam param "ocrasuite" (Py.Str OCRA_DEFAULT_SUITE) in
    match get_user_from_param param with
    | inl e => (w, inl e)
    | inr user_object =>
        match (match user_object with Some u => add_user u w | None => (w, inr tt) end) with
        | (w1, inl e) => (w1, inl e)
        | (w1, inr _) =>
            match OCRASuite ocrasuite with
            | inl e => (w1, inl e)
            | inr _ =>
                match base_update param (fst (add_tokeninfo "ocrasuite" ocrasuite w1)) with
                | (w3, inl e) => (w3, inl e)
                | (w3, inr _) =>
                    match user_object with
                    | Some u => set_realms [realm u] w3
                    | None => (w3, inr tt)
                    end
                end
            end
        end
    end.
Proof.
  assert (Htail : forall (k : unit -> M unit) w1,
            (lift (OCRASuite (getParam param "ocrasuite" (Py.Str OCRA_DEFAULT_SUITE)))
             ≫= λ _, add_tokeninfo "ocrasuite"
                       (getParam param "ocrasuite" (Py.Str OCRA_DEFAULT_SUITE))
                     ≫= λ _, base_update param ≫= k) w1
            = match OCRASuite (getParam param "ocrasuite" (Py.Str OCRA_DEFAULT_SUITE)) with
              | inl e => (w1, inl e)
              | inr _ =>
                  match base_update param
                          (fst (add_tokeninfo "ocrasuite"
                                  (getParam param "ocrasuite" (Py.Str OCRA_DEFAULT_SUITE)) w1)) with
                  | (w3, inl e) => (w3, inl e)
                  | (w3, inr a) => k a w3
                  end
              end).
  { intros k w1. rewrite bind_run. unfold lift at 1.
    destruct (OCRASuite _) as [e | os]; [reflexivity |].
    rewrite bind_run. cbn [add_tokeninfo modify fst]. rewrite bind_run.
    reflexivity. }
  unfold update. rewrite bind_run. unfold lift at 1.
  destruct (get_user_from_param param) as [e | [u |]]; [reflexivity | |].
  - rewrite bind_run. destruct (add_user u w) as [w1 [e | []]]; [reflexivity |].
    rewrite Htail. cbv zeta. destruct (OCRASuite _); [reflexivity |].
    destruct (base_update param _) as [w3 [e | []]]; reflexivity.
  - rewrite bind_run. change (ret tt w) with (w, @inr Py.exn unit tt). cbv beta iota.
    rewrite Htail. cbv zeta. destruct (OCRASuite _); [reflexivity |].
    destruct (base_update param _) as [w3 [e | []]]; reflexivity.
Qed.

Lemma base_update_journal (param : Py.dict) (w w3 : World) (r : Py.result unit) :
  base_update param w = (w3, r) ->
  journal w3 = (journal w ++ [Call_TokenClass_update param])%list.
Proof.
  unfold base_update. destruct (TokenClass_update param (self w)) as [t r0].
  intros H. inversion H; subst. reflexivity.
Qed.

(** Every run of [update], whatever its outcome, in terms of the calls it
    has journalled. *)
Lemma update_shape (param : Py.dict) (w w' : World) (r : Py.result unit) :
  update param w = (w', r) ->
  exists n,
    journal w' = (journal w ++ take n (update_calls param))%list
    /\ (r = inr tt -> n = length (update_calls param))
    /\ (forall e rs, r = inl e -> ~ In (Call_set_realms rs) (take n (update_calls param)))
    /\ (forall k v, In (Call_add_tokeninfo k v) (take n (update_calls param)) ->
                    exists os, OCRASuite v = inr os)
    /\ (forall u, r = inr tt -> get_user_from_param param = inr (Some u) ->
                  realms (self w') = [realm u]).
Proof.
  rewrite update_run. unfold update_calls. cbv zeta.
  destruct (get_user_from_param param) as [e | [u |]] eqn:Huser.
  - intros H. inversion H; subst. exists 0%nat. cbn [take]. rewrite app_nil_r.
    split; [reflexivity |]. split; [discriminate |].
    split; [intros e0 rs _ [] |]. split; [intros k v [] | discriminate].
  - destruct (add_user_run u w) as (w1 & r1 & Hadd & Hj1 & _).
    rewrite Hadd. destruct r1 as [e | []].
    { intros H. inversion H; subst. exists 1%nat. cbn [take].
      split; [exact Hj1 |]. split; [discriminate |].
      split; [intros e0 rs _ [Hin | []]; discriminate |].
      split; [intros k v [Hin | []]; discriminate | discriminate]. }
    destruct (OCRASuite _) as [e | os] eqn:Hsuite.
    { intros H. inversion H; subst. exists 1%nat. cbn [take].
      split; [exact Hj1 |]. split; [discriminate |].
      split; [intros e0 rs _ [Hin | []]; discriminate |].
      split; [intros k v [Hin | []]; discriminate | discriminate]. }
    destruct (base_update param _) as [w3 [e | []]] eqn:Hbase;
      apply base_update_journal in Hbase; cbn [add_tokeninfo modify fst journal log_call set_self] in Hbase.
    { intros H. inversion H; subst. exists 3%nat. cbn [take].
      split; [rewrite Hbase, Hj1, <- !app_assoc; reflexivity |].
      split; [discriminate |].
      split; [intros e0 rs _ [Hin | [Hin | [Hin | []]]]; discriminate |].
      split; [| discriminate].
      intros k v [Hin | [Hin | [Hin | []]]]; try discriminate.
      inversion Hin; subst. exists os. exact Hsuite. }
    intros H. unfold set_realms, modify in H. inversion H; subst. exists 4%nat. cbn [take].
    split; [cbn [journal log_call set_self]; rewrite Hbase, Hj1, <- !app_assoc; reflexivity |].
    split; [reflexivity |].
    split; [discriminate |].
    split.
    + intros k v [Hin | [Hin | [Hin | [Hin | []]]]]; try discriminate.
      inversion Hin; subst. exists os. exact Hsuite.
    + intros u0 _ Hu0. inversion Hu0; subst. reflexivity.
  - destruct (OCRASuite _) as [e | os] eqn:Hsuite.
    { intros H. inversion H; subst. exists 0%nat. cbn [take]. rewrite app_nil_r.
      split; [reflexivity |]. split; [discriminate |].
      split; [intros e0 rs _ [] |]. split; [intros k v [] | discriminate]. }
    destruct (base_update param _) as [w3 [e | []]] eqn:Hbase;
      apply base_update_journal in Hbase; cbn [add_tokeninfo modify fst journal log_call set_self] in Hbase.
    { intros H. inversion H; subst. exists 2%nat. cbn [take].
      split; [rewrite Hbase, <- !app_assoc; reflexivity |].
      split; [discriminate |].
      split; [intros e0 rs _ [Hin | [Hin | []]]; discriminate |].
      split; [| discriminate].
      intros k v [Hin | [Hin | []]]; try discriminate.
      inversion Hin; subst. exists os. exact Hsuite. }
    intros H. inversion H; subst. exists 2%nat. cbn [take].
    split; [rewrite Hbase, <- !app_assoc; reflexivity |].
    split; [reflexivity |].
    split; [discriminate |].
    split; [| discriminate].
    intros k v [Hin | [Hin | []]]; try discriminate.
    inversion Hin; subst. exists os. exact Hsuite.
Qed.

Lemma new_calls_app (w w' : World) (l : list call) :
  journal w' = (journal w ++ l)%list -> new_calls w w' = l.
Proof. intros H. unfold new_calls. rewrite H. apply drop_app_length. Qed.

Lemma in_take {A} (x : A) (n : nat) (l : list A) : In x (take n l) -> In x l.
Proof.
  revert l. induction n as [| n IH]; intros [| y l]; cbn [take]; try contradiction.
  intros [Hx | Hx]; [left; exact Hx | right; apply IH; exact Hx].
Qed.

Lemma update_calls_tokeninfo (param : Py.dict) (k : string) (v : Py.val) :
  In (Call_add_tokeninfo k v) (update_calls param) ->
  k = "ocrasuite" /\ v = getParam param "ocrasuite" (Py.Str OCRA_DEFAULT_SUITE).
Proof.
  unfold update_calls. cbv zeta.
  destruct (get_user_from_param param) as [e | [u |]].
  - intros [H | [H | []]]; try discriminate. inversion H. split; reflexivity.
  - intros [H | [H | [H | [H | []]]]]; try discriminate. inversion H. split; reflexivity.
  - intros [H | [H | []]]; try discriminate. inversion H. split; reflexivity.
Qed.

(** X14: whatever its outcome, update makes its calls in one fixed order:
    add_user (when the parameters resolve to a user), add_tokeninfo for the
    descriptor, the base-class update, set_realms (again only with a user).
    The calls journalled by a run are an initial segment of that sequence,
    and the whole sequence when the run succeeds. *)
Theorem update_call_order (param : Py.dict) (w w' : World) (r : Py.result unit) :
  update param w = (w', r) ->
  exists n,
    journal w' = (journal w ++ take n (update_calls param))%list
    /\ (r = inr tt -> take n (update_calls param) = update_calls param).
Proof.
  intros Hrun. destruct (update_shape _ _ _ _ Hrun) as (n & Hj & Hfull & _).
  exists n. split; [exact Hj |].
  intros Hok. rewrite (Hfull Hok). apply firstn_all.
Qed.

(** X15: update writes a descriptor to the token info only after the
    suite engine has accepted it.  Any add_tokeninfo call a run of update
    has journalled, successful or not, is for the key "ocrasuite" and for
    the descriptor of the parameters (or the default one), and the suite
    engine parses that descriptor. *)
Theorem update_stores_only_accepted_descriptor
    (param : Py.dict) (w w' : World) (r : Py.result unit) (k : string) (v : Py.val) :
  update param w = (w', r) ->
  In (Call_add_tokeninfo k v) (new_calls w w') ->
  k = "ocrasuite"
  /\ v = getParam param "ocrasuite" (Py.Str OCRA_DEFAULT_SUITE)
  /\ exists os, OCRASuite v = inr os.
Proof.
  intros Hrun Hin. destruct (update_shape _ _ _ _ Hrun) as (n & Hj & _ & _ & Hvalid & _).
  rewrite (new_calls_app _ _ _ Hj) in Hin.
  destruct (update_calls_tokeninfo _ _ _ (in_take _ _ _ Hin)) as (Hk & Hv).
  split; [exact Hk |]. split; [exact Hv |]. apply (Hvalid k v Hin).
Qed.

(** X16: update ends with its own set_realms call.  A successful update
    for a user has made the complete sequence of calls, set_realms last, and
    leaves the token with exactly that user's realm, whatever the base-class
    update did to the realms before. *)
Theorem update_success_realm (param : Py.dict) (w w' : World) :
  update param w = (w', inr tt) ->
  journal w' = (journal w ++ update_calls param)%list
  /\ forall u,
       get_user_from_param param = inr (Some u) ->
       realms (self w') = [realm u]
       /\ last (journal w') = Some (Call_set_realms [realm u]).
Proof.
  intros Hrun. destruct (update_shape _ _ _ _ Hrun) as (n & Hj & Hfull & _ & _ & Hrealm).
  assert (Hall : journal w' = (journal w ++ update_calls param)%list).
  { rewrite Hj, (Hfull eq_refl), firstn_all. reflexivity. }
  split; [exact Hall |].
  intros u Hu. split; [apply (Hrealm u eq_refl Hu) |].
  rewrite Hall. unfold update_calls. cbv zeta. rewrite Hu.
  change [Call_add_user u;
          Call_add_tokeninfo "ocrasuite" (getParam param "ocrasuite" (Py.Str OCRA_DEFAULT_SUITE));
          Call_TokenClass_update param; Call_set_realms [realm u]]
    with ([Call_add_user u;
           Call_add_tokeninfo "ocrasuite" (getParam param "ocrasuite" (Py.Str OCRA_DEFAULT_SUITE));
           Call_TokenClass_update param] ++ [Call_set_realms [realm u]])%list.
  rewrite app_assoc. apply last_snoc.
Qed.

(** ** CSV import, further *)

(** X17: get_import_csv changes nothing but the two entries it is about:
    every other entry the base importer produced is passed on unchanged,
    for rows of any length. *)
Theorem get_import_csv_keeps_other_entries (l : list string) (base : Py.dict) :
  TokenClass_get_import_csv l = inr base ->
  exists params,
    get_import_csv l = inr params
    /\ forall k, k <> "otplen" -> k <> "ocrasuite" -> params !! k = base !! k.
Proof.
  intros Hbase. unfold get_import_csv. rewrite Hbase. eexists. split; [reflexivity |].
  intros k Hotp Hsuite.
  assert (Hdel : match base !! "otplen" with
                 | Some _ => delete "otplen" base
                 | None => base
                 end !! k = base !! k).
  { destruct (base !! "otplen"); [apply lookup_delete_ne; congruence | reflexivity]. }
  destruct (4 <=? length l)%nat; [rewrite lookup_insert_ne by congruence |]; exact Hdel.
Qed.

(** X18: a row of fewer than four columns is never indexed at the fourth
    position: the result is the base importer's map without "otplen", and
    an "ocrasuite" entry is there only if the base importer supplied it. *)
Theorem get_import_csv_short_row (l : list string) (base : Py.dict) :
  TokenClass_get_import_csv l = inr base ->
  (length l < 4)%nat ->
  get_import_csv l = inr (delete "otplen" base).
Proof.
  intros Hbase Hlen. unfold get_import_csv. rewrite Hbase.
  assert (Hle : (4 <=? length l)%nat = false) by (apply Nat.leb_gt; exact Hlen).
  rewrite Hle. f_equal.
  destruct (base !! "otplen") eqn:Hotp; [reflexivity |].
  symmetry. apply delete_id. exact Hotp.
Qed.

(** X19: the descriptor get_import_csv takes from the fourth column is
    trimmed of white space, ASCII or not: the "ocrasuite" entry is a string
    that neither begins nor ends with a white-space character, and stripping
    it again changes nothing. *)
Theorem get_import_csv_descriptor_trimmed (l : list string) (base : Py.dict) :
  TokenClass_get_import_csv l = inr base ->
  (4 <= length l)%nat ->
  exists params s,
    get_import_csv l = inr params
    /\ params !! "ocrasuite" = Some (Py.Str s)
    /\ begins_with_space s = false
    /\ ends_with_space s = false
    /\ Py.strip s = s.
Proof.
  intros Hbase Hlen. unfold get_import_csv. rewrite Hbase.
  assert (Hle : (4 <=? length l)%nat = true) by (apply Nat.leb_le; exact Hlen).
  rewrite Hle. eexists _, (Py.strip (nth 3 l "")). split; [reflexivity |].
  split; [apply lookup_insert_eq |].
  destruct (strip_spec (nth 3 l "")) as (pre & post & _ & _ & _ & Hb & He & Hid).
  split; [exact Hb |]. split; [exact He | exact Hid].
Qed.

(** X20: import and enrollment compose.  Handing the parameters that
    get_import_csv makes of a row of at least four columns to update
    validates and stores the trimmed fourth column, never the default
    descriptor: a successful update has journalled add_tokeninfo for it, and
    update cannot succeed when the suite engine rejects it. *)
Theorem import_then_update (l : list string) (params : Py.dict) :
  get_import_csv l = inr params ->
  (4 <= length l)%nat ->
  getParam params "ocrasuite" (Py.Str OCRA_DEFAULT_SUITE) = Py.Str (Py.strip (nth 3 l ""))
  /\ (forall w w',
        update params w = (w', inr tt) ->
        In (Call_add_tokeninfo "ocrasuite" (Py.Str (Py.strip (nth 3 l "")))) (new_calls w w')
        /\ exists os, OCRASuite (Py.Str (Py.strip (nth 3 l ""))) = inr os)
  /\ (forall e w w',
        OCRASuite (Py.Str (Py.strip (nth 3 l ""))) = inl e ->
        update params w <> (w', inr tt)).
Proof.
  intros Himport Hlen.
  assert (Hparam : getParam params "ocrasuite" (Py.Str OCRA_DEFAULT_SUITE)
                   = Py.Str (Py.strip (nth 3 l ""))).
  { unfold get_import_csv in Himport.
    destruct (TokenClass_get_import_csv l) as [e | base]; [discriminate |].
    assert (Hle : (4 <=? length l)%nat = true) by (apply Nat.leb_le; exact Hlen).
    rewrite Hle in Himport. inversion Himport; subst.
    unfold getParam, Py.get_default. rewrite lookup_insert_eq. reflexivity. }
  assert (Hok : forall w w',
            update params w = (w', inr tt) ->
            In (Call_add_tokeninfo "ocrasuite" (Py.Str (Py.strip (nth 3 l "")))) (new_calls w w')
            /\ exists os, OCRASuite (Py.Str (Py.strip (nth 3 l ""))) = inr os).
  { intros w w' Hrun.
    destruct (update_shape _ _ _ _ Hrun) as (n & Hj & Hfull & _ & Hvalid & _).
    rewrite (new_calls_app _ _ _ Hj).
    assert (Hin : In (Call_add_tokeninfo "ocrasuite" (Py.Str (Py.strip (nth 3 l ""))))
                     (take n (update_calls params))).
    { rewrite (Hfull eq_refl), firstn_all. unfold update_calls. cbv zeta. rewrite Hparam.
      destruct (get_user_from_param params) as [e | [u |]]; cbn [In]; auto. }
    split; [exact Hin | apply (Hvalid _ _ Hin)]. }
  split; [exact Hparam |]. split; [exact Hok |].
  intros e w w' Hbad Hrun. destruct (Hok w w' Hrun) as (_ & os & Hos).
  rewrite Hos in Hbad. discriminate.
Qed.

(** ** Verification, further *)

(** [verify_response] stage by stage. *)
Lemma verify_response_run (passw challenge_ : Py.val) (w : World) :
  verify_response passw challenge_ w =
    match OCRA (Py.get (tokeninfo (self w)) "ocrasuite") (otpkey (self w)) with
    | inl e => (w, inl e)
    | inr ocra_object =>
        (log_call (Call_check_response passw challenge_) w,
         OCRA_check_response ocra_object passw challenge_)
    end.
Proof.
  unfold verify_response, get_tokeninfo, get_otpkey.
  rewrite !bind_run. unfold gets at 1. cbv beta iota.
  rewrite bind_run. unfold gets at 1. cbv beta iota.
  rewrite bind_run. unfold lift at 1.
  destruct (OCRA _ _) as [e | o]; [reflexivity |].
  rewrite bind_run. unfold modify at 1. cbv beta iota.
  rewrite bind_run. unfold lift at 1.
  destruct (OCRA_check_response o passw challenge_); reflexivity.
Qed.

(** X21: issuing and verifying treat a token without a stored descriptor
    differently.  create_challenge falls back on the default descriptor and,
    when the suite engine accepts that, stores a challenge generated from
    it; verify_response substitutes nothing: it builds the OCRA object from
    None and the token's key, and returns the engine's answer, or the
    exception of the failed construction with the world unchanged. *)
Theorem unset_descriptor_issue_and_verify
    (tid passw challenge_ : Py.val) (w : World) :
  tokeninfo (self w) !! "ocrasuite" = None ->
  (forall v os,
     resolve_validity w = (w, inr v) ->
     OCRASuite (Py.Str OCRA_DEFAULT_SUITE) = inr os ->
     exists w' reply row,
       create_challenge tid None w = (w', inr reply)
       /\ last (challenges w') = Some row
       /\ challenge row = Py.Str (OCRASuite_create_challenge os (urandom (cursor w))))
  /\ verify_response passw challenge_ w =
       match OCRA Py.None_ (otpkey (self w)) with
       | inl e => (w, inl e)
       | inr ocra_object =>
           (log_call (Call_check_response passw challenge_) w,
            OCRA_check_response ocra_object passw challenge_)
       end.
Proof.
  intros Hunset. split.
  - intros v os Hv Hos. apply resolve_validity_ok in Hv.
    rewrite create_challenge_run, Hv. cbn [default from_option id].
    assert (Hnone : Py.truthy (Py.get (∅ : Py.dict) "challenge") = false) by reflexivity.
    rewrite (choose_challenge_generated _ _ _ _ Hnone).
    unfold suite_of, Py.get. rewrite Hunset. cbn [default from_option id Py.or_ Py.truthy].
    rewrite Hos. eexists _, _, _. split; [reflexivity |].
    cbn [challenges log_call set_challenges set_cursor]. split; [apply last_snoc | reflexivity].
  - rewrite verify_response_run. unfold Py.get. rewrite Hunset. reflexivity.
Qed.

(** X22: check_otp only reads.  Whatever the options and the outcome, the
    token object, the challenge table, the configuration and the random
    source are as before; the journal gains at most one entry, the
    response check for the password and the "challenge" entry of the
    options. *)
Theorem check_otp_only_reads
    (otpval counter window : Py.val) (options : option Py.dict) (w w' : World) (r : Py.result Z) :
  check_otp otpval counter window options w = (w', r) ->
  self w' = self w
  /\ challenges w' = challenges w
  /\ config w' = config w
  /\ cursor w' = cursor w
  /\ (journal w' = journal w
      \/ exists d ch,
           options = Some d /\ d !! "challenge" = Some ch
           /\ journal w' = (journal w ++ [Call_check_response otpval ch])%list).
Proof.
  unfold check_otp, check_token_locked.
  destruct (locked (self w)).
  { intros H. inversion H; subst. repeat split. left. reflexivity. }
  rewrite bind_run. unfold lift at 1.
  destruct (subscript options "challenge") as [e | ch] eqn:Hsub.
  { intros H. inversion H; subst. repeat split. left. reflexivity. }
  rewrite verify_response_run.
  destruct (OCRA _ _) as [e | o].
  { intros H. inversion H; subst. repeat split. left. reflexivity. }
  intros H. inversion H; subst. repeat split. right.
  destruct options as [d |]; [| discriminate].
  exists d, ch. split; [reflexivity |]. split; [| reflexivity].
  unfold subscript, Py.getitem in Hsub. destruct (d !! "challenge"); [| discriminate].
  inversion Hsub. reflexivity.
Qed.

(** X23: called without options (the default None), check_otp cannot
    subscript them: it raises TypeError before verify_response is entered
    (TokenAdminError on a locked token) and leaves the world untouched. *)
Theorem check_otp_without_options (otpval counter window : Py.val) (w : World) :
  check_otp otpval counter window None w
  = (w, inl (if locked (self w) then Py.TokenAdminError else Py.TypeError)).
Proof.
  unfold check_otp, check_token_locked. destruct (locked (self w)); reflexivity.
Qed.

End MoreProperties.

(** ** The class description *)

Section ClassInfoProperties.

Context `{N : PolicyNames}.

Lemma class_info_res_keys (k : string) :
  k <> "type" -> k <> "title" -> k <> "description" -> k <> "init" ->
  k <> "config" -> k <> "ui_enroll" -> k <> "policy" ->
  dict_get k class_info_res = None.
Proof.
  intros H1 H2 H3 H4 H5 H6 H7. unfold class_info_res.
  cbn [dict_display fold_left dict_set fst snd String.eqb Ascii.eqb Bool.eqb].
  cbn [dict_get].
  rewrite !(proj2 (String.eqb_neq _ _)) by (intros Heq; symmetry in Heq; contradiction).
  reflexivity.
Qed.

(** X24: get_class_info.  With a non-empty key the argument ret plays no
    part: the answer is the entry of the description under that key, and
    the empty dictionary for every key the description does not have (ret
    is not returned for an unknown key).  With no key, or with the empty
    string as key, the answer is the whole description when ret is 'all'
    and ret itself otherwise. *)
Theorem get_class_info_cases (key : option string) (ret : info) :
  (forall k ret', key = Some k -> k <> "" ->
     get_class_info key ret = get_class_info key ret'
     /\ get_class_info key ret = default (IDict []) (dict_get k class_info_res))
  /\ (forall k, key = Some k -> k <> "" ->
        k <> "type" -> k <> "title" -> k <> "description" -> k <> "init" ->
        k <> "config" -> k <> "ui_enroll" -> k <> "policy" ->
        get_class_info key ret = IDict [])
  /\ (key = None \/ key = Some "" ->
        get_class_info key ret = if is_all ret then IDict class_info_res else ret).
Proof.
  assert (Hkey : forall k r, k <> "" ->
            get_class_info (Some k) r = default (IDict []) (dict_get k class_info_res)).
  { intros k r Hk. unfold get_class_info.
    rewrite (proj2 (String.eqb_neq _ _) Hk). reflexivity. }
  split; [| split].
  - intros k ret' -> Hk. rewrite !Hkey by exact Hk. split; reflexivity.
  - intros k -> Hk H1 H2 H3 H4 H5 H6 H7. rewrite Hkey by exact Hk.
    rewrite class_info_res_keys by assumption. reflexivity.
  - intros [-> | ->]; reflexivity.
Qed.

End ClassInfoProperties.

(** * The further properties on explicit inputs *)

Section MoreInstances.

#[local] Existing Instance Reference.platform.
#[local] Existing Instance Samples.names.

Import Reference Samples.

(** X1 for a supplied challenge on the fresh token. *)
Lemma create_challenge_stores_one_row_witness :
  exists w' reply,
    create_challenge Py.None_ (Some options_plain) world0 = (w', inr reply)
    /\ exists row, challenges w' = [row] /\ ch_serial row = "OCRA0001".
Proof.
  destruct (create_challenge Py.None_ (Some options_plain) world0) as [w' [e | reply]] eqn:Hrun;
    [vm_compute in Hrun; discriminate Hrun |].
  exists w', reply. split; [reflexivity |].
  destruct (create_challenge_stores_one_row _ _ _ _ _ Hrun) as (row & Hch & _ & Hserial & _).
  exists row. split; [exact Hch | exact Hserial].
Defined.

(** X2 for a hashed challenge. *)
Lemma create_challenge_reply_matches_row_witness :
  exists w' reply,
    create_challenge Py.None_ (Some options_sha256) world0 = (w', inr reply)
    /\ exists row attributes,
         last (challenges w') = Some row
         /\ reply_dict reply = {["attributes" := attributes]}
         /\ attributes !! "challenge" = Some (challenge row).
Proof.
  destruct (create_challenge Py.None_ (Some options_sha256) world0) as [w' [e | reply]] eqn:Hrun;
    [vm_compute in Hrun; discriminate Hrun |].
  exists w', reply. split; [reflexivity |].
  destruct (create_challenge_reply_matches_row _ _ _ _ _ Hrun)
    as (row & attributes & Hlast & _ & _ & _ & Hdict & Hattr).
  exists row, attributes. split; [exact Hlast |]. split; [exact Hdict | exact Hattr].
Defined.

(** X3 on a token whose stored descriptor is rejected. *)
Lemma create_challenge_failure_stores_nothing_witness :
  exists w' e,
    create_challenge Py.None_ None world_bad_suite = (w', inl e)
    /\ challenges w' = [] /\ journal w' = [].
Proof.
  destruct (create_challenge Py.None_ None world_bad_suite) as [w' [e | reply]] eqn:Hrun;
    [| vm_compute in Hrun; discriminate Hrun].
  exists w', e. split; [reflexivity |].
  destruct (create_challenge_failure_stores_nothing _ _ _ _ _ Hrun) as (Hch & Hj & _).
  split; [exact Hch | exact Hj].
Defined.

(** X4 for a supplied challenge. *)
Lemma create_challenge_attributes_witness :
  exists w' reply,
    create_challenge Py.None_ (Some options_plain) world0 = (w', inr reply)
    /\ exists row clear,
         last (challenges w') = Some row
         /\ reply_dict reply !! "attributes"
            = Some (<["challenge" := challenge row]>
                      (<["qrcode" := Py.Str (create_img clear)]>
                         (<["original_challenge" := clear]> ∅))).
Proof.
  destruct (create_challenge Py.None_ (Some options_plain) world0) as [w' [e | reply]] eqn:Hrun;
    [vm_compute in Hrun; discriminate Hrun |].
  exists w', reply. split; [reflexivity |].
  destruct (create_challenge_attributes _ _ _ _ _ Hrun) as (row & Hlast & Hshape).
  change (Py.truthy (Py.get (default ∅ (Some options_plain)) "challenge")) with true in Hshape.
  destruct Hshape as (clear & Hattr).
  exists row, clear. split; [exact Hlast | exact Hattr].
Defined.

(** X5 for a token of type "TiQR": the entry "TiqrChallengeValidityTime"
    is the one used. *)
Lemma create_challenge_validity_by_type_witness :
  validity_key (tokentype (self world_tiqr)) = "TiqrChallengeValidityTime"
  /\ exists w' reply,
       create_challenge Py.None_ (Some options_plain) world_tiqr = (w', inr reply)
       /\ exists row, last (challenges w') = Some row /\ validitytime row = 30.
Proof.
  split; [reflexivity |].
  destruct (create_challenge Py.None_ (Some options_plain) world_tiqr) as [w' [e | reply]] eqn:Hrun;
    [vm_compute in Hrun; discriminate Hrun |].
  exists w', reply. split; [reflexivity |].
  destruct (create_challenge_validity_by_type _ _ _ _ _ Hrun) as (row & Hlast & Hval).
  exists row. split; [exact Hlast |].
  assert (H30 : Py.int (validity_lookup (tokentype (self world_tiqr)) (config world_tiqr)) = inr 30)
    by reflexivity.
  rewrite H30 in Hval. inversion Hval. reflexivity.
Defined.

(** X6 with a proper type-specific entry beside the broken default. *)
Lemma create_challenge_bad_global_default_witness :
  config world_bad_default !! "OcraChallengeValidityTime" = Some (Py.Str "60")
  /\ Py.int (Py.get_default (config world_bad_default) "DefaultChallengeValidityTime" (Py.Int 120))
     = inl Py.ValueError
  /\ create_challenge Py.None_ (Some options_plain) world_bad_default
     = (world_bad_default, inl Py.ValueError).
Proof.
  assert (Hbad : Py.int (Py.get_default (config world_bad_default)
                           "DefaultChallengeValidityTime" (Py.Int 120)) = inl Py.ValueError)
    by reflexivity.
  split; [reflexivity |]. split; [exact Hbad |].
  exact (create_challenge_bad_global_default _ _ _ _ Hbad).
Defined.

(** X7 on the fresh token with both validity times configured. *)
Lemma init_then_create_challenge_validity_witness :
  self world_configured = init db_token
  /\ exists w' reply,
       create_challenge Py.None_ None world_configured = (w', inr reply)
       /\ exists row, last (challenges w') = Some row /\ validitytime row = 60.
Proof.
  split; [reflexivity |].
  destruct (create_challenge Py.None_ None world_configured) as [w' [e | reply]] eqn:Hrun;
    [vm_compute in Hrun; discriminate Hrun |].
  exists w', reply. split; [reflexivity |].
  assert (Hinit : self world_configured = init db_token) by reflexivity.
  destruct (init_then_create_challenge_validity db_token _ _ _ _ _ Hinit Hrun)
    as (row & Hlast & Hval).
  exists row. split; [exact Hlast |].
  assert (H60 : Py.int (ordered_validity_lookup (config world_configured)) = inr 60)
    by reflexivity.
  rewrite H60 in Hval. inversion Hval. reflexivity.
Defined.

(** X8: a supplied challenge is stored although the token's descriptor is
    one the suite engine rejects. *)
Lemma create_challenge_supplied_ignores_suite_witness :
  Py.truthy (Py.get options_plain "challenge") = true
  /\ snd (create_challenge Py.None_ (Some options_plain) world_bad_suite)
     = snd (create_challenge Py.None_ (Some options_plain) world0).
Proof.
  assert (Hsupplied : Py.truthy (Py.get options_plain "challenge") = true) by reflexivity.
  split; [exact Hsupplied |].
  unfold world_bad_suite.
  rewrite (create_challenge_supplied_ignores_suite Py.None_ options_plain _ world0 Hsupplied).
  reflexivity.
Defined.

(** X9 on the token with the rejected descriptor. *)
Lemma create_challenge_generated_bad_suite_witness :
  Py.truthy (Py.get (default ∅ None) "challenge") = false
  /\ resolve_validity world_bad_suite = (world_bad_suite, inr 120)
  /\ create_challenge Py.None_ None world_bad_suite
     = (world_bad_suite, inl (Py.Exception_ "The OCRAsuite consists of three fields")).
Proof.
  assert (Hfalsy : Py.truthy (Py.get (default ∅ (None : option Py.dict)) "challenge") = false)
    by reflexivity.
  assert (Hv : resolve_validity world_bad_suite = (world_bad_suite, inr 120)) by reflexivity.
  split; [exact Hfalsy |]. split; [exact Hv |].
  apply (create_challenge_generated_bad_suite Py.None_ None world_bad_suite 120 _ Hfalsy Hv).
  reflexivity.
Defined.

(** X10 with the suffix length given as the string "6". *)
Lemma create_challenge_suffix_length_witness :
  options_suffix !! "challenge" = Some (Py.Str "pay 10 EUR")
  /\ Py.int (Py.get options_suffix "addrandomchallenge") = inr 6
  /\ exists w' reply,
       create_challenge Py.None_ (Some options_suffix) world0 = (w', inr reply)
       /\ exists suffix attributes,
            reply_dict reply !! "attributes" = Some attributes
            /\ attributes !! "original_challenge" = Some (Py.Str ("pay 10 EUR" ++ suffix))
            /\ String.length suffix = 6%nat.
Proof.
  assert (Hs : options_suffix !! "challenge" = Some (Py.Str "pay 10 EUR")) by reflexivity.
  assert (Hk : Py.int (Py.get options_suffix "addrandomchallenge") = inr 6) by reflexivity.
  split; [exact Hs |]. split; [exact Hk |].
  destruct (create_challenge Py.None_ (Some options_suffix) world0) as [w' [e | reply]] eqn:Hrun;
    [vm_compute in Hrun; discriminate Hrun |].
  exists w', reply. split; [reflexivity |].
  assert (Hne : "pay 10 EUR" <> "") by discriminate.
  assert (Hrandom : Py.truthy (Py.get options_suffix "addrandomchallenge") = true)
    by reflexivity.
  destruct (create_challenge_suffix_length _ _ _ _ _ _ _ Hs Hne Hrandom Hk Hrun)
    as (suffix & attributes & Hattr & Horig & Hlen & _).
  exists suffix, attributes. split; [exact Hattr |]. split; [exact Horig | exact Hlen].
Defined.

(** X11 with the suffix length "six". *)
Lemma create_challenge_bad_suffix_length_witness :
  Py.truthy (Py.get options_bad_suffix "challenge") = true
  /\ Py.truthy (Py.get options_bad_suffix "addrandomchallenge") = true
  /\ Py.int (Py.get options_bad_suffix "addrandomchallenge") = inl Py.ValueError
  /\ create_challenge Py.None_ (Some options_bad_suffix) world0 = (world0, inl Py.ValueError).
Proof.
  assert (H1 : Py.truthy (Py.get options_bad_suffix "challenge") = true) by reflexivity.
  assert (H2 : Py.truthy (Py.get options_bad_suffix "addrandomchallenge") = true) by reflexivity.
  assert (H3 : Py.int (Py.get options_bad_suffix "addrandomchallenge") = inl Py.ValueError)
    by reflexivity.
  assert (Hv : resolve_validity world0 = (world0, inr 120)) by reflexivity.
  split; [exact H1 |]. split; [exact H2 |]. split; [exact H3 |].
  exact (create_challenge_bad_suffix_length Py.None_ _ _ 120 _ H1 H2 H3 Hv).
Defined.

(** X12 with the hashing option True. *)
Lemma create_challenge_hash_option_not_a_string_witness :
  Py.truthy (Py.get options_bad_hash "challenge") = true
  /\ options_bad_hash !! "hashchallenge" = Some (Py.Bool true)
  /\ create_challenge Py.None_ (Some options_bad_hash) world0 = (world0, inl Py.AttributeError).
Proof.
  assert (H1 : Py.truthy (Py.get options_bad_hash "challenge") = true) by reflexivity.
  assert (H2 : options_bad_hash !! "hashchallenge" = Some (Py.Bool true)) by reflexivity.
  assert (H3 : forall s, Py.Bool true <> Py.Str s) by discriminate.
  assert (Hv : resolve_validity world0 = (world0, inr 120)) by reflexivity.
  split; [exact H1 |]. split; [exact H2 |].
  apply (proj2 (create_challenge_hash_option_not_a_string Py.None_ _ _ world0 H1 H2 H3) 120);
    [reflexivity | exact Hv].
Defined.

(** X13 with the hashing option "yes", which selects SHA-1. *)
Lemma create_challenge_hashed_length_witness :
  Py.lower_val (Py.get_default options_sha1 "hashchallenge" (Py.Str "")) = inr "yes"
  /\ exists w' reply,
       create_challenge Py.None_ (Some options_sha1) world0 = (w', inr reply)
       /\ exists row s,
            last (challenges w') = Some row /\ challenge row = Py.Str s
            /\ String.length s = 40%nat.
Proof.
  assert (Hh : Py.lower_val (Py.get_default options_sha1 "hashchallenge" (Py.Str "")) = inr "yes")
    by reflexivity.
  split; [exact Hh |].
  destruct (create_challenge Py.None_ (Some options_sha1) world0) as [w' [e | reply]] eqn:Hrun;
    [vm_compute in Hrun; discriminate Hrun |].
  exists w', reply. split; [reflexivity |].
  assert (Hne : "yes" <> "") by discriminate.
  assert (Hsupplied : Py.truthy (Py.get options_sha1 "challenge") = true) by reflexivity.
  destruct (create_challenge_hashed_length _ _ _ _ _ _ Hsupplied Hh Hne Hrun)
    as (row & s & Hlast & Hrow & Hlen & _).
  exists row, s. split; [exact Hlast |]. split; [exact Hrow | exact Hlen].
Defined.

(** X14 on the enrollment that fails at the descriptor: one call made. *)
Lemma update_call_order_witness :
  exists w' r n,
    update param_bogus_user world0 = (w', r)
    /\ journal w' = take n (update_calls param_bogus_user).
Proof.
  destruct (update param_bogus_user world0) as [w' r] eqn:Hrun.
  destruct (update_call_order _ _ _ _ Hrun) as (n & Hj & _).
  exists w', r, n. split; [reflexivity | exact Hj].
Defined.

(** X15 on the regular enrollment. *)
Lemma update_stores_only_accepted_descriptor_witness :
  In (Call_add_tokeninfo "ocrasuite" (Py.Str "OCRA-1:HOTP-SHA1-6:QN08"))
     (new_calls world0 (fst (update param_alice world0)))
  /\ exists os, OCRASuite (Py.Str "OCRA-1:HOTP-SHA1-6:QN08") = inr os.
Proof.
  assert (Hin : In (Call_add_tokeninfo "ocrasuite" (Py.Str "OCRA-1:HOTP-SHA1-6:QN08"))
                   (new_calls world0 (fst (update param_alice world0))))
    by (vm_compute; right; left; reflexivity).
  split; [exact Hin |].
  destruct (update_stores_only_accepted_descriptor param_alice world0 _ _ _ _
              (surjective_pairing (update param_alice world0)) Hin) as (_ & _ & Hos).
  exact Hos.
Defined.

(** X16 on the regular enrollment. *)
Lemma update_success_realm_witness :
  exists w',
    update param_alice world0 = (w', inr tt)
    /\ journal w' = update_calls param_alice
    /\ realms (self w') = ["realm1"].
Proof.
  destruct (update param_alice world0) as [w' [e | []]] eqn:Hrun;
    [vm_compute in Hrun; discriminate Hrun |].
  exists w'. split; [reflexivity |].
  destruct (update_success_realm _ _ _ Hrun) as (Hj & Hrealm).
  split; [exact Hj |].
  assert (Huser : get_user_from_param param_alice = inr (Some alice)) by reflexivity.
  exact (proj1 (Hrealm alice Huser)).
Defined.

(** X17 at the row of the specification. *)
Lemma get_import_csv_keeps_other_entries_witness :
  exists base params,
    TokenClass_get_import_csv csv_row = inr base
    /\ get_import_csv csv_row = inr params
    /\ params !! "serial" = base !! "serial".
Proof.
  destruct (TokenClass_get_import_csv csv_row) as [e | base] eqn:Hbase;
    [vm_compute in Hbase; discriminate Hbase |].
  destruct (get_import_csv_keeps_other_entries csv_row base Hbase) as (params & Hrun & Hkeep).
  exists base, params. split; [reflexivity |]. split; [exact Hrun |].
  apply Hkeep; discriminate.
Defined.

(** X18 at a row of three columns. *)
Lemma get_import_csv_short_row_witness :
  (length short_row < 4)%nat
  /\ exists base,
       TokenClass_get_import_csv short_row = inr base
       /\ get_import_csv short_row = inr (delete "otplen" base).
Proof.
  assert (Hlen : (length short_row < 4)%nat) by (cbn [length short_row]; lia).
  split; [exact Hlen |].
  destruct (TokenClass_get_import_csv short_row) as [e | base] eqn:Hbase;
    [vm_compute in Hbase; discriminate Hbase |].
  exists base. split; [reflexivity |].
  exact (get_import_csv_short_row short_row base Hbase Hlen).
Defined.

(** X19 at the row padded with blanks, a tabulator, a no-break space and
    an em space. *)
Lemma get_import_csv_descriptor_trimmed_witness :
  (4 <= length unicode_row)%nat
  /\ Py.strip (nth 3 unicode_row "") = "OCRA-1:HOTP-SHA1-6:QN08"
  /\ exists base params s,
       TokenClass_get_import_csv unicode_row = inr base
       /\ get_import_csv unicode_row = inr params
       /\ params !! "ocrasuite" = Some (Py.Str s)
       /\ begins_with_space s = false
       /\ ends_with_space s = false.
Proof.
  assert (Hlen : (4 <= length unicode_row)%nat) by (cbn [length unicode_row]; lia).
  split; [exact Hlen |]. split; [vm_compute; reflexivity |].
  destruct (TokenClass_get_import_csv unicode_row) as [e | base] eqn:Hbase;
    [vm_compute in Hbase; discriminate Hbase |].
  destruct (get_import_csv_descriptor_trimmed unicode_row base Hbase Hlen)
    as (params & s & Hrun & Hsuite & Hb & He & _).
  exists base, params, s. split; [reflexivity |]. split; [exact Hrun |].
  split; [exact Hsuite |]. split; [exact Hb | exact He].
Defined.

(** X20 at the padded row. *)
Lemma import_then_update_witness :
  (4 <= length padded_row)%nat
  /\ exists params,
       get_import_csv padded_row = inr params
       /\ getParam params "ocrasuite" (Py.Str OCRA_DEFAULT_SUITE)
          = Py.Str "OCRA-1:HOTP-SHA1-6:QN08".
Proof.
  assert (Hlen : (4 <= length padded_row)%nat) by (cbn [length padded_row]; lia).
  split; [exact Hlen |].
  destruct (get_import_csv padded_row) as [e | params] eqn:Himport;
    [vm_compute in Himport; discriminate Himport |].
  exists params. split; [reflexivity |].
  exact (proj1 (import_then_update padded_row params Himport Hlen)).
Defined.

(** X21 on the fresh token, which has no descriptor yet. *)
Lemma unset_descriptor_issue_and_verify_witness :
  tokeninfo (self world0) !! "ocrasuite" = None
  /\ (exists w' reply, create_challenge Py.None_ None world0 = (w', inr reply))
  /\ verify_response (Py.Str "57272cf5") (Py.Str "12345678") world0
     = (world0, inl Py.AttributeError).
Proof.
  assert (Hunset : tokeninfo (self world0) !! "ocrasuite" = None) by reflexivity.
  split; [exact Hunset |].
  destruct (unset_descriptor_issue_and_verify Py.None_ (Py.Str "57272cf5") (Py.Str "12345678")
              world0 Hunset) as (Hissue & Hverify).
  split.
  - assert (Hv : resolve_validity world0 = (world0, inr 120)) by reflexivity.
    assert (Hos : OCRASuite (Py.Str OCRA_DEFAULT_SUITE) = inr ["OCRA-1"; "HOTP-SHA1-8"; "QH40"])
      by reflexivity.
    destruct (Hissue 120 _ Hv Hos) as (w' & reply & row & Hrun & _).
    exists w', reply. exact Hrun.
  - rewrite Hverify. reflexivity.
Defined.

(** X22 on the enrolled token. *)
Lemma check_otp_only_reads_witness :
  exists w' r,
    check_otp (Py.Str "57272cf5") Py.None_ Py.None_ (Some options_plain) world_enrolled = (w', r)
    /\ self w' = self world_enrolled
    /\ challenges w' = challenges world_enrolled.
Proof.
  destruct (check_otp (Py.Str "57272cf5") Py.None_ Py.None_ (Some options_plain) world_enrolled)
    as [w' r] eqn:Hrun.
  exists w', r. split; [reflexivity |].
  destruct (check_otp_only_reads _ _ _ _ _ _ _ Hrun) as (Hself & Hch & _).
  split; [exact Hself | exact Hch].
Defined.

(** X24 at a key the description does not have. *)
Lemma get_class_info_cases_witness :
  get_class_info (Some "nonsense") (IStr "fallback") = IDict []
  /\ get_class_info (Some "") (IStr "fallback") = IStr "fallback"
  /\ get_class_info None (IStr "all") = IDict class_info_res.
Proof.
  split; [| split].
  - apply (proj1 (proj2 (get_class_info_cases (Some "nonsense") (IStr "fallback")))
             "nonsense" eq_refl); discriminate.
  - apply (proj2 (proj2 (get_class_info_cases (Some "") (IStr "fallback")))).
    right. reflexivity.
  - apply (proj2 (proj2 (get_class_info_cases None (IStr "all")))).
    left. reflexivity.
Defined.

(** *** Further runs *)

Example class_info_type : get_class_info (Some "type") (IStr "all") = IStr get_class_type.
Proof. reflexivity. Qed.

Example supplied_challenge_on_bad_suite :
  map challenge (challenges (fst (create_challenge Py.None_ (Some options_plain) world_bad_suite)))
  = [Py.Str "12345678"].
Proof. vm_compute. reflexivity. Qed.

End MoreInstances.
